(** * ClickHouse analytics client wrapper: model and properties

    A shallow embedding of [src/clickhouse_client.py]:

    - [ClickHouseQuery], the fluent SQL builder, as a record of its seven
      private fields with its methods in a state monad over that record;
    - [ClickHouseClient], as functions in a state-and-exception monad over a
      world made of the HTTP requests sent so far and the files written.

    What lies outside the repository is taken as the environment: the server
    (an oracle from the request history and the request to a reply), the
    file system's willingness to open a path, and the record formatter of
    the [csv] module. *)

From Stdlib Require Import ZArith List String Ascii Bool Lia.
From Stdlib Require Import DecimalString SpecFloat.
Import ListNotations.

Local Open Scope string_scope.
Local Open Scope Z_scope.

(* ------------------------------------------------------------------ *)
(** ** Python primitives on strings and integers *)

Module Py.

(** [sep.join(parts)]. *)
Definition join (sep : string) (parts : list string) : string :=
  String.concat sep parts.

(** [str(n)] for an [int]. *)
Definition str_int (n : Z) : string :=
  NilZero.string_of_int (Z.to_int n).

(** Truth value of a [str]: false exactly for the empty string. *)
Definition truthy_str (s : string) : bool :=
  match s with
  | EmptyString => false
  | String _ _ => true
  end.

(** Truth value of a [list]: false exactly for the empty list. *)
Definition truthy_list {A : Type} (l : list A) : bool :=
  match l with
  | [] => false
  | _ :: _ => true
  end.

(** Truth value of an [int]: false exactly for zero. *)
Definition truthy_int (n : Z) : bool := negb (n =? 0).

(** The characters used as separators. *)
Definition tab : string := String (ascii_of_nat 9) EmptyString.
Definition nl : string := String (ascii_of_nat 10) EmptyString.
Definition cr : string := String (ascii_of_nat 13) EmptyString.
Definition dquote : ascii := ascii_of_nat 34.

(** [l.append(x)] and [l.extend(xs)], as the lists they leave. *)
Definition list_append {A : Type} (l : list A) (x : A) : list A := (l ++ [x])%list.
Definition list_extend {A : Type} (l xs : list A) : list A := (l ++ xs)%list.

(** Does character [c] occur in [s]? *)
Fixpoint has_char (c : ascii) (s : string) : bool :=
  match s with
  | EmptyString => false
  | String a s' => Ascii.eqb a c || has_char c s'
  end.

End Py.

(* ------------------------------------------------------------------ *)
(** ** The query builder, [class ClickHouseQuery] *)

Module Builder.
Import Py.

Record ClickHouseQuery : Type := mkQuery {
  _select_cols : list string;
  _from_table : option string;
  _where_conditions : list string;
  _group_cols : list string;
  _order_cols : list string;
  _limit_count : option Z;
  _desc : bool
}.

(** [__init__]. *)
Definition init : ClickHouseQuery :=
  {| _select_cols := [];
     _from_table := None;
     _where_conditions := [];
     _group_cols := [];
     _order_cols := [];
     _limit_count := None;
     _desc := false |}.

(** A method of the builder: it reads and writes the fields of [self]
    and returns a value. *)
Definition Method (A : Type) : Type := ClickHouseQuery -> A * ClickHouseQuery.

Definition mret {A} (a : A) : Method A := fun self => (a, self).

Definition mbind {A B} (m : Method A) (k : A -> Method B) : Method B :=
  fun self => let (a, self') := m self in k a self'.

(** Reading an attribute of [self]. *)
Definition attr {A} (field : ClickHouseQuery -> A) : Method A :=
  fun self => (field self, self).

(** Updating [self]. *)
Definition update (f : ClickHouseQuery -> ClickHouseQuery) : Method unit :=
  fun self => (tt, f self).

Notation "x <- m ;; k" := (mbind m (fun x => k))
  (at level 61, m at next level, right associativity).
Notation "m ;;; k" := (mbind m (fun _ => k))
  (at level 61, right associativity).

Definition set_select_cols v q :=
  mkQuery v (_from_table q) (_where_conditions q) (_group_cols q)
          (_order_cols q) (_limit_count q) (_desc q).
Definition set_from_table v q :=
  mkQuery (_select_cols q) v (_where_conditions q) (_group_cols q)
          (_order_cols q) (_limit_count q) (_desc q).
Definition set_where_conditions v q :=
  mkQuery (_select_cols q) (_from_table q) v (_group_cols q)
          (_order_cols q) (_limit_count q) (_desc q).
Definition set_group_cols v q :=
  mkQuery (_select_cols q) (_from_table q) (_where_conditions q) v
          (_order_cols q) (_limit_count q) (_desc q).
Definition set_order_cols v q :=
  mkQuery (_select_cols q) (_from_table q) (_where_conditions q)
          (_group_cols q) v (_limit_count q) (_desc q).
Definition set_limit_count v q :=
  mkQuery (_select_cols q) (_from_table q) (_where_conditions q)
          (_group_cols q) (_order_cols q) v (_desc q).
Definition set_desc v q :=
  mkQuery (_select_cols q) (_from_table q) (_where_conditions q)
          (_group_cols q) (_order_cols q) (_limit_count q) v.

(** [select] with its positional arguments [cols]:
    [self._select_cols.extend(cols)]. *)
Definition select (cols : list string) : Method unit :=
  old <- attr _select_cols ;;
  update (set_select_cols (list_extend old cols)).

(** [from_(table)]. *)
Definition from_ (table : string) : Method unit :=
  update (set_from_table (Some table)).

(** [where] with its positional arguments [conditions] ([where] is a
    keyword here, hence the underscore). *)
Definition where_ (conditions : list string) : Method unit :=
  old <- attr _where_conditions ;;
  update (set_where_conditions (list_extend old conditions)).

(** [group_by] with its positional arguments [cols]. *)
Definition group_by (cols : list string) : Method unit :=
  old <- attr _group_cols ;;
  update (set_group_cols (list_extend old cols)).

(** [order_by] with its positional arguments [cols] and keyword [desc]:
    extends the columns, then overwrites the one flag of the builder. *)
Definition order_by (cols : list string) (desc : bool) : Method unit :=
  old <- attr _order_cols ;;
  update (set_order_cols (list_extend old cols)) ;;;
  update (set_desc desc).

(** [limit(n)]. *)
Definition limit (n : Z) : Method unit :=
  update (set_limit_count (Some n)).

(** The six blocks of [build], each mapping the list [parts] built so far
    to the list after the block. *)
Definition build_select (parts : list string) : Method (list string) :=
  cols <- attr _select_cols ;;
  if truthy_list cols
  then mret (list_append parts ("SELECT " ++ join ", " cols))
  else mret (list_append parts ("SELECT *")).

Definition build_from (parts : list string) : Method (list string) :=
  table <- attr _from_table ;;
  match table with
  | Some t =>
      if truthy_str t then mret (list_append parts ("FROM " ++ t)) else mret parts
  | None => mret parts
  end.

Definition build_where (parts : list string) : Method (list string) :=
  conds <- attr _where_conditions ;;
  if truthy_list conds
  then mret (list_append parts ("WHERE " ++ join " AND " conds))
  else mret parts.

Definition build_group (parts : list string) : Method (list string) :=
  cols <- attr _group_cols ;;
  if truthy_list cols
  then mret (list_append parts ("GROUP BY " ++ join ", " cols))
  else mret parts.

Definition build_order (parts : list string) : Method (list string) :=
  cols <- attr _order_cols ;;
  if truthy_list cols
  then
    let order_str := join ", " cols in
    desc <- attr _desc ;;
    let order_str := if desc then order_str ++ " DESC" else order_str in
    mret (list_append parts ("ORDER BY " ++ order_str))
  else mret parts.

Definition build_limit (parts : list string) : Method (list string) :=
  n <- attr _limit_count ;;
  match n with
  | Some k =>
      if truthy_int k
      then mret (list_append parts ("LIMIT " ++ str_int k))
      else mret parts
  | None => mret parts
  end.

(** [build()]. *)
Definition build : Method string :=
  parts <- build_select [] ;;
  parts <- build_from parts ;;
  parts <- build_where parts ;;
  parts <- build_group parts ;;
  parts <- build_order parts ;;
  parts <- build_limit parts ;;
  mret (join " " parts).

(** The string [build()] returns on a builder in state [q]. *)
Definition render (q : ClickHouseQuery) : string := fst (build q).

(** *** Calls on a builder *)

Inductive call : Type :=
| Select (cols : list string)
| From (table : string)
| Where (conditions : list string)
| GroupBy (cols : list string)
| OrderBy (cols : list string) (desc : bool)
| Limit (n : Z)
| Build.

(** One call: the string it returns, if it is [build()], and the state it
    leaves. *)
Definition do_call (c : call) (q : ClickHouseQuery)
  : option string * ClickHouseQuery :=
  match c with
  | Select cols => (None, snd (select cols q))
  | From t => (None, snd (from_ t q))
  | Where cs => (None, snd (where_ cs q))
  | GroupBy cols => (None, snd (group_by cols q))
  | OrderBy cols d => (None, snd (order_by cols d q))
  | Limit n => (None, snd (limit n q))
  | Build => let (s, q') := build q in (Some s, q')
  end.

(** A sequence of calls, left to right: the final state. *)
Fixpoint run (cs : list call) (q : ClickHouseQuery) : ClickHouseQuery :=
  match cs with
  | [] => q
  | c :: cs' => run cs' (snd (do_call c q))
  end.

Definition is_build (c : call) : bool :=
  match c with Build => true | _ => false end.

Definition is_order_by (c : call) : bool :=
  match c with OrderBy _ _ => true | _ => false end.

(** The columns the [order_by] calls of a sequence pass, in call order. *)
Fixpoint order_args (cs : list call) : list string :=
  match cs with
  | [] => []
  | OrderBy cols _ :: cs' => (cols ++ order_args cs')%list
  | _ :: cs' => order_args cs'
  end.

(** *** The rendering as the specification words it

    Each clause is present or absent; the present ones are joined by one
    space, in the order SELECT, FROM, WHERE, GROUP BY, ORDER BY, LIMIT. *)

Definition spec_select_clause (q : ClickHouseQuery) : option string :=
  match _select_cols q with
  | [] => Some "SELECT *"
  | cols => Some ("SELECT " ++ join ", " cols)
  end.

Definition spec_from_clause (q : ClickHouseQuery) : option string :=
  match _from_table q with
  | None | Some EmptyString => None
  | Some t => Some ("FROM " ++ t)
  end.

Definition spec_where_clause (q : ClickHouseQuery) : option string :=
  match _where_conditions q with
  | [] => None
  | conds => Some ("WHERE " ++ join " AND " conds)
  end.

Definition spec_group_clause (q : ClickHouseQuery) : option string :=
  match _group_cols q with
  | [] => None
  | cols => Some ("GROUP BY " ++ join ", " cols)
  end.

Definition spec_order_clause (q : ClickHouseQuery) : option string :=
  match _order_cols q with
  | [] => None
  | cols =>
      Some ("ORDER BY " ++ join ", " cols ++ (if _desc q then " DESC" else ""))
  end.

Definition spec_limit_clause (q : ClickHouseQuery) : option string :=
  match _limit_count q with
  | None | Some 0 => None
  | Some n => Some ("LIMIT " ++ str_int n)
  end.

(** The clauses that are present, in order. *)
Fixpoint present (clauses : list (option string)) : list string :=
  match clauses with
  | [] => []
  | Some c :: rest => c :: present rest
  | None :: rest => present rest
  end.

Definition spec_clauses (q : ClickHouseQuery) : list (option string) :=
  [ spec_select_clause q; spec_from_clause q; spec_where_clause q;
    spec_group_clause q; spec_order_clause q; spec_limit_clause q ].

Definition spec_render (q : ClickHouseQuery) : string :=
  join " " (present (spec_clauses q)).

(** No caller-supplied fragment of the builder contains character [c]. *)
Definition fragments_free_of (c : ascii) (q : ClickHouseQuery) : bool :=
  forallb (fun s => negb (has_char c s))
    (_select_cols q ++ _where_conditions q ++ _group_cols q ++ _order_cols q)%list
  && match _from_table q with
     | Some t => negb (has_char c t)
     | None => true
     end.

End Builder.

(* ------------------------------------------------------------------ *)
(** ** Python values, dictionaries and exceptions *)

Module PyData.
Import Py.

(** A value of a row, as [json.loads] decodes it: [None], a [bool], an
    [int], a [float] (binary64) or a [str]. *)
Inductive value : Type :=
| JNull
| JBool (b : bool)
| JInt (n : Z)
| JFloat (f : spec_float)
| JStr (s : string).

(** A [dict] with string keys, in insertion order. *)
Definition Row : Type := list (string * value).

(** [list(row.keys())]. *)
Definition keys (row : Row) : list string := map fst row.

(** [row.get(key, default)]. *)
Fixpoint get (row : Row) (key : string) (default : value) : value :=
  match row with
  | [] => default
  | (k, v) :: rest => if String.eqb k key then v else get rest key default
  end.

(** The exception classes that occur. All derive from [Exception];
    [HTTPError] derives from [URLError]. *)
Inductive exn_class : Type :=
| Exception_
| URLError
| HTTPError
| JSONDecodeError
| UnicodeDecodeError
| AttributeError
| TypeError
| ValueError
| OverflowError
| ZeroDivisionError
| OSError.

(** An exception: its class and [str(e)]. *)
Record exn : Type := mkExn { exn_cls : exn_class; exn_str : string }.

(** [isinstance(e, urllib.error.URLError)]. *)
Definition is_URLError (e : exn) : bool :=
  match exn_cls e with
  | URLError | HTTPError => true
  | _ => false
  end.

(** [isinstance(e, Exception)]. *)
Definition is_Exception (e : exn) : bool := true.

(** The outcome of evaluating an expression or a call. *)
Inductive Result (A : Type) : Type :=
| Returns (a : A)
| Raises (e : exn).
Arguments Returns {A} a.
Arguments Raises {A} e.


(** *** True division, [x / d] with [d] an [int] *)

Definition prec : Z := 53.
Definition emax : Z := 1024.

(** [n / d] on two [int]s: the binary64 nearest to the quotient, ties to
    even; [OverflowError] when that is out of range. *)
Definition int_truediv (n d : Z) : Result spec_float :=
  match d with
  | 0 => Raises (mkExn ZeroDivisionError "division by zero")
  | _ =>
      let s := xorb (n <? 0) (d <? 0) in
      match n with
      | 0 => Returns (S754_zero s)
      | _ =>
          let '(m, e, l) :=
            SFdiv_core_binary prec emax (Z.abs n) 0 (Z.abs d) 0 in
          match binary_round_aux prec emax s m e l with
          | S754_infinity _ =>
              Raises (mkExn OverflowError
                        "integer division result too large for a float")
          | f => Returns f
          end
      end
  end.

(** [float(d)] for an [int]. *)
Definition float_of_int (d : Z) : Result spec_float :=
  match binary_normalize prec emax d 0 false with
  | S754_infinity _ =>
      Raises (mkExn OverflowError "int too large to convert to float")
  | f => Returns f
  end.

(** [f / d] on a [float] and an [int]. *)
Definition float_truediv (f : spec_float) (d : Z) : Result spec_float :=
  match float_of_int d with
  | Raises e => Raises e
  | Returns fd =>
      match fd with
      | S754_zero _ => Raises (mkExn ZeroDivisionError "float division by zero")
      | _ => Returns (SFdiv prec emax f fd)
      end
  end.

Definition type_name (v : value) : string :=
  match v with
  | JNull => "NoneType"
  | JBool _ => "bool"
  | JInt _ => "int"
  | JFloat _ => "float"
  | JStr _ => "str"
  end.

(** [v / d] for a row value [v] and an [int] [d]; a [bool] is an [int]. *)
Definition truediv (v : value) (d : Z) : Result value :=
  let as_float r :=
    match r with
    | Returns f => Returns (JFloat f)
    | Raises e => Raises e
    end in
  match v with
  | JInt n => as_float (int_truediv n d)
  | JBool b => as_float (int_truediv (if b then 1 else 0) d)
  | JFloat f => as_float (float_truediv f d)
  | JNull | JStr _ =>
      Raises (mkExn TypeError
                ("unsupported operand type(s) for /: '" ++ type_name v
                 ++ "' and 'int'"))
  end.

Definition numeric (v : value) : bool :=
  match v with
  | JInt _ | JBool _ | JFloat _ => true
  | JNull | JStr _ => false
  end.

End PyData.

(* ------------------------------------------------------------------ *)
(** ** The client, [class ClickHouseClient] *)

Module Client.
Import Py PyData.

(** [ClickHouseConnection]. *)
Record ClickHouseConnection : Type := mkConnection {
  host : string;
  port : Z;
  database : string;
  user : string;
  password : string
}.

Definition base_url (conn : ClickHouseConnection) : string :=
  "http://" ++ host conn ++ ":" ++ str_int (port conn).

(** A [urllib.request.Request]. Headers are kept under the name that
    [add_header] is given. *)
Record Request : Type := mkRequest {
  req_url : string;
  req_data : string;
  req_method : string;
  req_headers : list (string * string)
}.

Definition add_header (name val : string) (req : Request) : Request :=
  mkRequest (req_url req) (req_data req) (req_method req)
            (list_append (req_headers req) (name, val)).

Definition header (name : string) (req : Request) : option string :=
  option_map snd
    (find (fun h => String.eqb (fst h) name) (req_headers req)).

(** What [json.loads] makes of a response body: it raises, or it gives a
    JSON object, of which only the member ["data"] matters, or a JSON
    value of another Python type. *)
Inductive Document : Type :=
| JsonObject (data : option (list Row))
| JsonOther (type : string).

(** What happens to a request: [urlopen] raises; or a response arrives and
    reading its body raises; or a response arrives and is read, and
    [json.loads] rejects or decodes its body. *)
Inductive Reply : Type :=
| Fails (e : exn)
| Breaks (e : exn)
| Responds (body : Result Document).

(** A response as [urlopen] returns it: what [response.read()] gives, the
    body standing for what [json.loads] makes of it. *)
Definition Response : Type := Result (Result Document).

(** The world the client acts on: the requests handed to [urlopen] so
    far, oldest first, and the content of the files. *)
Record World : Type := mkWorld {
  sent : list Request;
  files : string -> option string
}.

(** A method of the client. *)
Definition M (A : Type) : Type := World -> Result A * World.

Definition ret {A} (a : A) : M A := fun w => (Returns a, w).

Definition raise {A} (e : exn) : M A := fun w => (Raises e, w).

Definition bind {A B} (m : M A) (k : A -> M B) : M B :=
  fun w =>
    match m w with
    | (Returns a, w') => k a w'
    | (Raises e, w') => (Raises e, w')
    end.

(** [try: body  except C as e: handler(e)], where [catches] decides
    [isinstance(e, C)]. *)
Definition try_except {A} (body : M A) (catches : exn -> bool)
    (handler : exn -> M A) : M A :=
  fun w =>
    match body w with
    | (Returns a, w') => (Returns a, w')
    | (Raises e, w') =>
        if catches e then handler e w' else (Raises e, w')
    end.

(** An expression that may raise, evaluated inside a method. *)
Definition lift {A} (r : Result A) : M A := fun w => (r, w).

Notation "x <- m ;; k" := (bind m (fun x => k))
  (at level 61, m at next level, right associativity).
Notation "m ;;; k" := (bind m (fun _ => k))
  (at level 61, right associativity).

(** [str(value)]; [float_repr] is [repr] on floats. *)
Definition str (float_repr : spec_float -> string) (v : value) : string :=
  match v with
  | JNull => "None"
  | JBool true => "True"
  | JBool false => "False"
  | JInt n => str_int n
  | JFloat f => float_repr f
  | JStr s => s
  end.

(** The field the [csv] writer emits for a value: empty for [None], the
    string itself, [str] of anything else. *)
Definition csv_field (float_repr : spec_float -> string) (v : value)
  : string :=
  match v with
  | JNull => ""
  | _ => str float_repr v
  end.

(** [repr] of a key, for keys without quotes, backslashes or control
    characters. *)
Definition repr_key (k : string) : string := "'" ++ k ++ "'".

(** The body of [insert]: the lines of the TabSeparated payload. *)
Definition tsv_body (float_repr : spec_float -> string)
    (columns : list string) (rows : list Row) : string :=
  let values :=
    map (fun row => map (fun col => str float_repr (get row col (JStr "")))
                        columns) rows in
  let values_lines := map (fun row => join tab row) values in
  join nl values_lines.

Definition insert_statement (table : string) (columns : list string)
  : string :=
  let columns_str := join ", " columns in
  "INSERT INTO " ++ table ++ " (" ++ columns_str ++ ") FORMAT TabSeparated".

Definition create_table_sql (name schema engine order_by : string) : string :=
  nl ++ "        CREATE TABLE IF NOT EXISTS " ++ name ++ " (" ++
  nl ++ "            " ++ schema ++
  nl ++ "        )" ++
  nl ++ "        ENGINE = " ++ engine ++
  nl ++ "        ORDER BY " ++ order_by ++
  nl ++ "        ".

Definition table_stats_sql (name : string) : string :=
  nl ++ "        SELECT" ++
  nl ++ "            rows," ++
  nl ++ "            bytes_on_disk as compressed_size," ++
  nl ++ "            bytes_uncompressed as uncompressed_size" ++
  nl ++ "        FROM system.tables" ++
  nl ++ "        WHERE name = '" ++ name ++ "'" ++
  nl ++ "        ".

(** The mapping [table_stats] returns. *)
Record TableStats : Type := mkStats {
  rows : value;
  compressed_size_mb : value;
  uncompressed_size_mb : value
}.

Definition zero_stats : TableStats := mkStats (JInt 0) (JInt 0) (JInt 0).

(** [DictWriter._dict_to_list]: with the default [extrasaction], a key
    outside [fieldnames] raises [ValueError]; a missing key yields the
    default [restval], the empty string. Several offending keys are
    listed here in row order. *)
Definition dict_to_list (fieldnames : list string) (rowdict : Row)
  : Result (list value) :=
  let wrong_fields :=
    filter (fun k => negb (existsb (String.eqb k) fieldnames))
           (keys rowdict) in
  if truthy_list wrong_fields
  then Raises (mkExn ValueError
                 ("dict contains fields not in fieldnames: "
                  ++ join ", " (map repr_key wrong_fields)))
  else Returns (map (fun key => get rowdict key (JStr "")) fieldnames).

Section Environment.

(** The server: its reply to a request, given the requests before. *)
Variable server : list Request -> Request -> Reply.

(** [repr] on floats. *)
Variable float_repr : spec_float -> string.

(** One record as [csv.writer] formats it, line terminator included. *)
Variable csv_record : list string -> string.

(** Opening a path for writing: [None] when it succeeds, else the
    message of the [OSError]. *)
Variable open_error : string -> option string.

Variable conn : ClickHouseConnection.

(** [urllib.request.urlopen(req, timeout=30)]. *)
Definition urlopen (req : Request) : M Response :=
  fun w =>
    let w' := mkWorld (list_append (sent w) req) (files w) in
    match server (sent w) req with
    | Fails e => (Raises e, w')
    | Breaks e => (Returns (Raises e), w')
    | Responds body => (Returns (Returns body), w')
    end.

(** [response.read()]. *)
Definition read (response : Response) : M (Result Document) :=
  lift response.

(** [open(path, "w")]: the file is created or truncated. *)
Definition open_w (path : string) : M unit :=
  fun w =>
    match open_error path with
    | Some msg => (Raises (mkExn OSError msg), w)
    | None =>
        (Returns tt,
         mkWorld (sent w)
                 (fun p => if String.eqb p path then Some ""
                           else files w p))
    end.

(** [f.write(text)] on the file opened at [path]. *)
Definition write (path text : string) : M unit :=
  fun w =>
    (Returns tt,
     mkWorld (sent w)
             (fun p => if String.eqb p path
                       then Some (match files w p with
                                  | Some old => old ++ text
                                  | None => text
                                  end)
                       else files w p)).

(** The URL of [insert]; [query] adds the format to it. *)
Definition with_credentials (url : string) : string :=
  let url := if truthy_str (user conn)
             then url ++ "&user=" ++ user conn else url in
  if truthy_str (password conn)
  then url ++ "&password=" ++ password conn else url.

Definition query_request (sql format : string) : Request :=
  let url := base_url conn ++ "/?database=" ++ database conn
             ++ "&format=" ++ format in
  let url := with_credentials url in
  add_header "Content-Type" "text/plain" (mkRequest url sql "POST" []).

(** [query(sql, format)]. *)
Definition query (sql format : string) : M (list Row) :=
  try_except
    (response <- urlopen (query_request sql format) ;;
     body <- read response ;;
     result <- lift body ;;
     match result with
     | JsonObject (Some data) => ret data
     | JsonObject None => ret []
     | JsonOther type =>
         raise (mkExn AttributeError
                  ("'" ++ type ++ "' object has no attribute 'get'"))
     end)
    is_URLError
    (fun e => raise (mkExn Exception_
                       ("ClickHouse query failed: " ++ exn_str e))).

Definition insert_request (table : string) (rows : list Row) : Request :=
  let columns := match rows with
                 | row0 :: _ => keys row0
                 | [] => []
                 end in
  let insert_data := tsv_body float_repr columns rows in
  let sql := insert_statement table columns in
  let url := with_credentials
               (base_url conn ++ "/?database=" ++ database conn) in
  add_header "X-ClickHouse-Query" sql
    (add_header "Content-Type" "text/plain"
       (mkRequest url insert_data "POST" [])).

(** [insert(table, rows)]. *)
Definition insert (table : string) (rows : list Row) : M bool :=
  if negb (truthy_list rows)
  then ret true
  else
    try_except
      (response <- urlopen (insert_request table rows) ;;
       read response ;;;
       ret true)
      is_URLError
      (fun e => raise (mkExn Exception_
                         ("ClickHouse insert failed: " ++ exn_str e))).

(** [create_table(name, schema, engine, order_by)]. *)
Definition create_table (name schema engine order_by : string) : M bool :=
  let sql := create_table_sql name schema engine order_by in
  try_except
    (query sql "JSON" ;;; ret true)
    is_Exception
    (fun _ => ret false).

(** [table_stats(name)]. *)
Definition table_stats (name : string) : M TableStats :=
  let sql := table_stats_sql name in
  try_except
    (results <- query sql "JSON" ;;
     match results with
     | row :: _ =>
         let r := get row "rows" (JInt 0) in
         c <- lift (truediv (get row "compressed_size" (JInt 0))
                            (1024 * 1024)) ;;
         u <- lift (truediv (get row "uncompressed_size" (JInt 0))
                            (1024 * 1024)) ;;
         ret (mkStats r c u)
     | [] => ret zero_stats
     end)
    is_Exception
    (fun _ => ret zero_stats).

(** [writer.writerows(results)]: rows are converted and written one
    after the other; the first row that cannot be converted raises. *)
Fixpoint writerows (path : string) (fieldnames : list string)
    (rowdicts : list Row) : M unit :=
  match rowdicts with
  | [] => ret tt
  | rowdict :: rest =>
      fields <- lift (dict_to_list fieldnames rowdict) ;;
      write path (csv_record (map (csv_field float_repr) fields)) ;;;
      writerows path fieldnames rest
  end.

(** [export_csv(sql, output_path)]. *)
Definition export_csv (sql output_path : string) : M bool :=
  try_except
    (results <- query sql "JSON" ;;
     match results with
     | [] =>
         open_w output_path ;;;
         write output_path "" ;;;
         ret true
     | row0 :: _ =>
         let columns := keys row0 in
         open_w output_path ;;;
         write output_path (csv_record columns) ;;;
         writerows output_path columns results ;;;
         ret true
     end)
    is_Exception
    (fun e => raise (mkExn Exception_
                       ("Failed to export CSV: " ++ exn_str e))).

End Environment.

(** The record format of the default dialect of [csv]: fields separated
    by commas, the record ended by CR LF; a field is quoted when it holds
    a comma, a quote, CR or LF, its quotes doubled; a record of one empty
    field is written as a pair of quotes. *)
Fixpoint double_quotes (s : string) : string :=
  match s with
  | EmptyString => EmptyString
  | String a s' =>
      if Ascii.eqb a dquote
      then String dquote (String dquote (double_quotes s'))
      else String a (double_quotes s')
  end.

Definition excel_field (s : string) : string :=
  if has_char "," s || has_char dquote s
     || has_char (ascii_of_nat 13) s || has_char (ascii_of_nat 10) s
  then String dquote (double_quotes s ++ String dquote EmptyString)
  else s.

Definition excel_record (fields : list string) : string :=
  match fields with
  | [EmptyString] => String dquote (String dquote (cr ++ nl))
  | _ => join "," (map excel_field fields) ++ cr ++ nl
  end.

End Client.

(* ------------------------------------------------------------------ *)
(** ** Reading rows, and the environments of the examples *)

Module Examples.
Import Py PyData Client.

Definition conn0 : ClickHouseConnection :=
  mkConnection "localhost" 8123 "default" "default" "".

Definition world0 : World := mkWorld [] (fun _ => None).

(** The rows of the examples hold no float, so any [repr] does. *)
Definition repr0 (f : spec_float) : string := "nan".

Definition always_opens (path : string) : option string := None.

Definition answers (rows : list Row) : list Request -> Request -> Reply :=
  fun _ _ => Responds (Returns (JsonObject (Some rows))).

(** [row[key]] when the key is present. *)
Fixpoint lookup (row : Row) (key : string) : option value :=
  match row with
  | [] => None
  | (k, v) :: rest => if String.eqb k key then Some v else lookup rest key
  end.

(** The row without the keys outside [ks]. *)
Definition restrict (ks : list string) (row : Row) : Row :=
  filter (fun kv => existsb (String.eqb (fst kv)) ks) row.

(** The cell of [insert] for a row and a column. *)
Definition cell (float_repr : spec_float -> string) (row : Row)
    (col : string) : string :=
  match lookup row col with
  | Some v => str float_repr v
  | None => ""
  end.

(** What [query] returns or raises, by the reply of the server. *)
Definition query_outcome (reply : Reply) : Result (list Row) :=
  let through e :=
    if is_URLError e
    then Raises (mkExn Exception_ ("ClickHouse query failed: " ++ exn_str e))
    else Raises e in
  match reply with
  | Fails e => through e
  | Breaks e => through e
  | Responds (Raises e) => through e
  | Responds (Returns (JsonObject (Some data))) => Returns data
  | Responds (Returns (JsonObject None)) => Returns []
  | Responds (Returns (JsonOther type)) =>
      Raises (mkExn AttributeError
                ("'" ++ type ++ "' object has no attribute 'get'"))
  end.

Definition decode_error : exn :=
  mkExn JSONDecodeError "Expecting value: line 1 column 1 (char 0)".

(** A server whose response body is not JSON. *)
Definition not_json : list Request -> Request -> Reply :=
  fun _ _ => Responds (Raises decode_error).

Definition connection_refused : exn :=
  mkExn URLError "<urlopen error [Errno 111] Connection refused>".

(** A server that cannot be reached. *)
Definition unreachable : list Request -> Request -> Reply :=
  fun _ _ => Fails connection_refused.

Definition stats_row : Row :=
  [("rows", JInt 5); ("compressed_size", JInt 2097152);
   ("uncompressed_size", JInt 4194304)].

(** A row as the server sends it when it quotes 64-bit integers. *)
Definition quoted_stats_row : Row :=
  [("rows", JStr "5"); ("compressed_size", JStr "2097152");
   ("uncompressed_size", JStr "4194304")].

(** Every key of every row is one of [fieldnames]. *)
Definition keys_within (fieldnames : list string) (rs : list Row) : bool :=
  forallb (fun row =>
             forallb (fun k => existsb (String.eqb k) fieldnames) (keys row))
          rs.

(** The records [writerows] emits for rows that it accepts. *)
Definition csv_rows (float_repr : spec_float -> string)
    (csv_record : list string -> string) (fieldnames : list string)
    (rs : list Row) : string :=
  join "" (map (fun row =>
                  csv_record
                    (map (fun k => csv_field float_repr (get row k (JStr "")))
                         fieldnames))
               rs).

Definition two_rows : list Row :=
  [ [("a", JInt 1); ("b", JStr "x,y")]; [("b", JNull); ("a", JBool true)] ].

(** The second row has a key the first lacks. *)
Definition uneven_rows : list Row :=
  [ [("a", JInt 1)]; [("a", JInt 2); ("b", JInt 3)] ].

End Examples.

(* ------------------------------------------------------------------ *)
(** ** The remaining methods of the client *)

Module Metadata.
Import Py PyData Client Examples.

(** How a method that subscripts a row ends: like any method, or with the
    [KeyError] of the subscript, whose [str] is the [repr] of the key. *)
Inductive Outcome (A : Type) : Type :=
| Normal (r : Result A)
| RaisesKeyError (key : string).
Arguments Normal {A} r.
Arguments RaisesKeyError {A} key.

(** [[row[key] for row in results]]: the values, or [None] when some row
    lacks the key. *)
Fixpoint column (key : string) (results : list Row) : option (list value) :=
  match results with
  | [] => Some []
  | row :: rest =>
      match lookup row key with
      | None => None
      | Some v =>
          match column key rest with
          | None => None
          | Some vs => Some (v :: vs)
          end
      end
  end.

(** What reading in text mode makes of the line ends: CR LF and a lone CR
    both become LF. *)
Fixpoint universal_newlines (text : string) : string :=
  match text with
  | EmptyString => EmptyString
  | String c rest =>
      if Ascii.eqb c (ascii_of_nat 13)
      then
        match rest with
        | String c' rest' =>
            if Ascii.eqb c' (ascii_of_nat 10)
            then String c' (universal_newlines rest')
            else String (ascii_of_nat 10) (universal_newlines rest)
        | EmptyString => String (ascii_of_nat 10) EmptyString
        end
      else String c (universal_newlines rest)
  end.

Section Environment.

Variable server : list Request -> Request -> Reply.
Variable conn : ClickHouseConnection.

(** [query_df(sql)]. *)
Definition query_df (sql : string) : M (list Row) :=
  query server conn sql "JSON".

(** [describe_table(name)]. *)
Definition describe_table (name : string) : M (list Row) :=
  let sql := "DESCRIBE TABLE " ++ name in
  query server conn sql "JSON".

Definition list_tables_sql (db : string) : string :=
  "SELECT name FROM system.tables WHERE database = '" ++ db ++ "'".

(** [database or self.conn.database]. *)
Definition database_or_default (db : option string) : string :=
  match db with
  | Some d => if truthy_str d then d else database conn
  | None => database conn
  end.

(** [list_tables(database)]. *)
Definition list_tables (db : option string)
  : World -> Outcome (list value) * World :=
  fun w =>
    let db := database_or_default db in
    let sql := list_tables_sql db in
    match query server conn sql "JSON" w with
    | (Returns results, w') =>
        match column "name" results with
        | Some names => (Normal (Returns names), w')
        | None => (RaisesKeyError "name", w')
        end
    | (Raises e, w') => (Normal (Raises e), w')
    end.

(** [repr] on a [str], which the message of [FileNotFoundError] applies to
    the path. *)
Variable repr_str : string -> string.

(** [open(path, "r")] and [f.read()]. A path that holds no file raises
    [FileNotFoundError], an [OSError]. The files hold text in the encoding
    of the locale, and reading in text mode translates the line ends. *)
Definition read_file (path : string) : M string :=
  fun w =>
    match files w path with
    | Some text => (Returns (universal_newlines text), w)
    | None =>
        (Raises (mkExn OSError
                   ("[Errno 2] No such file or directory: " ++ repr_str path)),
         w)
    end.

(** [execute_file(path)]. *)
Definition execute_file (path : string) : M bool :=
  try_except
    (sql <- read_file path ;;
     query server conn sql "JSON" ;;;
     ret true)
    is_Exception
    (fun e => raise (mkExn Exception_
                       ("Failed to execute file " ++ path ++ ": "
                        ++ exn_str e))).

End Environment.

End Metadata.

(* ------------------------------------------------------------------ *)
(** ** The command line, [main] *)

Module Cli.
Import Py PyData Client Metadata.

(** The subcommand that [argparse] found, with its argument. *)
Inductive Command : Type :=
| QueryCommand (sql : string)
| TablesCommand
| StatsCommand (table : string).

(** The namespace [parse_args] returns; [command] is [None] when no
    subcommand was given. *)
Record Namespace : Type := mkNamespace {
  args_host : string;
  args_port : Z;
  args_database : string;
  args_user : string;
  args_password : string;
  args_command : option Command
}.

Section Environment.

Variable server : list Request -> Request -> Reply.
Variable float_repr : spec_float -> string.

(** [json.dumps(_, indent=2)] on the rows of a result and on the mapping
    of [table_stats]. *)
Variable json_dumps_rows : list Row -> string.
Variable json_dumps_stats : TableStats -> string.

(** [main], after [parse_args]: the texts it prints, in order, and the
    world it leaves. *)
Definition main (args : Namespace) : World -> list string * World :=
  fun w =>
    let conn := mkConnection (args_host args) (args_port args)
                  (args_database args) (args_user args)
                  (args_password args) in
    match args_command args with
    | Some (QueryCommand sql) =>
        match query server conn sql "JSON" w with
        | (Returns results, w') => ([json_dumps_rows results], w')
        | (Raises e, w') => (["Error: " ++ exn_str e], w')
        end
    | Some TablesCommand =>
        match list_tables server conn None w with
        | (Normal (Returns tables), w') => (map (str float_repr) tables, w')
        | (Normal (Raises e), w') => (["Error: " ++ exn_str e], w')
        | (RaisesKeyError key, w') => (["Error: " ++ repr_key key], w')
        end
    | Some (StatsCommand table) =>
        match table_stats server conn table w with
        | (Returns stats, w') => ([json_dumps_stats stats], w')
        | (Raises e, w') => (["Error: " ++ exn_str e], w')
        end
    | None => ([], w)
    end.

End Environment.

End Cli.

(* ------------------------------------------------------------------ *)
(** ** Notions used to state the further properties *)

Module Notions.
Import Py PyData Client.

(** The part of the builder a call writes. *)
Inductive clause : Type :=
| SelectClause | FromClause | WhereClause | GroupClause | OrderClause
| LimitClause | NoClause.

Definition touches (c : Builder.call) : clause :=
  match c with
  | Builder.Select _ => SelectClause
  | Builder.From _ => FromClause
  | Builder.Where _ => WhereClause
  | Builder.GroupBy _ => GroupClause
  | Builder.OrderBy _ _ => OrderClause
  | Builder.Limit _ => LimitClause
  | Builder.Build => NoClause
  end.

Definition clause_eqb (a b : clause) : bool :=
  match a, b with
  | SelectClause, SelectClause | FromClause, FromClause
  | WhereClause, WhereClause | GroupClause, GroupClause
  | OrderClause, OrderClause | LimitClause, LimitClause
  | NoClause, NoClause => true
  | _, _ => false
  end.

(** What the calls of a sequence pass, clause by clause: the arguments of
    the extending calls in call order, and the argument of the last setting
    call, [initial] when there is none. *)
Fixpoint select_args (cs : list Builder.call) : list string :=
  match cs with
  | [] => []
  | Builder.Select cols :: cs' => (cols ++ select_args cs')%list
  | _ :: cs' => select_args cs'
  end.

Fixpoint where_args (cs : list Builder.call) : list string :=
  match cs with
  | [] => []
  | Builder.Where conds :: cs' => (conds ++ where_args cs')%list
  | _ :: cs' => where_args cs'
  end.

Fixpoint group_args (cs : list Builder.call) : list string :=
  match cs with
  | [] => []
  | Builder.GroupBy cols :: cs' => (cols ++ group_args cs')%list
  | _ :: cs' => group_args cs'
  end.

Fixpoint last_from (cs : list Builder.call) (initial : option string)
  : option string :=
  match cs with
  | [] => initial
  | Builder.From t :: cs' => last_from cs' (Some t)
  | _ :: cs' => last_from cs' initial
  end.

Fixpoint last_limit (cs : list Builder.call) (initial : option Z)
  : option Z :=
  match cs with
  | [] => initial
  | Builder.Limit n :: cs' => last_limit cs' (Some n)
  | _ :: cs' => last_limit cs' initial
  end.

Fixpoint last_desc (cs : list Builder.call) (initial : bool) : bool :=
  match cs with
  | [] => initial
  | Builder.OrderBy _ d :: cs' => last_desc cs' d
  | _ :: cs' => last_desc cs' initial
  end.

(** The credentials a URL ends with: each present only when not empty. *)
Definition credentials (conn : ClickHouseConnection) : string :=
  (if truthy_str (user conn) then "&user=" ++ user conn else "")
  ++ (if truthy_str (password conn)
      then "&password=" ++ password conn else "").

(** A method that returns a flag never returns [False]. *)
Definition never_false (m : M bool) : Prop :=
  forall w, fst (m w) <> Returns false.

(** The row has a key outside [fieldnames]. *)
Definition has_extra_key (fieldnames : list string) (row : Row) : bool :=
  negb (forallb (fun k => existsb (String.eqb k) fieldnames) (keys row)).

Definition plain_zero : value := JFloat (S754_zero false).

(** Environments of the examples; they print a summary in place of the
    JSON text. *)
Definition args0 (c : Cli.Command) : Cli.Namespace :=
  Cli.mkNamespace "localhost" 8123 "default" "default" "" (Some c).

Definition dumps_rows0 (rs : list Row) : string :=
  "<" ++ str_int (Z.of_nat (List.length rs)) ++ " rows>".

Definition dumps_stats0 (st : TableStats) : string :=
  match rows st with
  | JInt n => "<stats rows=" ++ str_int n ++ ">"
  | _ => "<stats>"
  end.

End Notions.

(* ------------------------------------------------------------------ *)
(** ** Properties of the query builder *)

Module BuilderFacts.
Import Py Builder.

Lemma has_char_app (c : ascii) (s1 s2 : string) :
  has_char c (s1 ++ s2) = has_char c s1 || has_char c s2.
Proof.
  induction s1 as [|a s1 IH]; simpl; [reflexivity|].
  now rewrite IH, orb_assoc.
Qed.

Lemma append_empty_r (s : string) : s ++ "" = s.
Proof. induction s as [|a s IH]; simpl; [reflexivity | now rewrite IH]. Qed.

Lemma has_char_join (c : ascii) (sep : string) (parts : list string) :
  has_char c sep = false ->
  forallb (fun s => negb (has_char c s)) parts = true ->
  has_char c (join sep parts) = false.
Proof.
  intros Hsep. induction parts as [|p ps IH]; simpl; [reflexivity|].
  intros H. apply andb_true_iff in H. destruct H as [Hp Hps].
  apply negb_true_iff in Hp. destruct ps as [|p' ps']; [exact Hp|].
  change (has_char c (p ++ sep ++ join sep (p' :: ps')) = false).
  rewrite !has_char_app, Hp, Hsep, (IH Hps). reflexivity.
Qed.

Lemma has_char_uint (c : ascii) (d : Decimal.uint) :
  (nat_of_ascii c < 48 \/ 57 < nat_of_ascii c)%nat ->
  has_char c (NilEmpty.string_of_uint d) = false.
Proof.
  intros Hc.
  assert (Hd : forall a, (48 <= nat_of_ascii a <= 57)%nat -> Ascii.eqb a c = false).
  { intros a Ha. apply Ascii.eqb_neq. intros ->. lia. }
  induction d; cbn [NilEmpty.string_of_uint has_char];
    [reflexivity| rewrite IHd, Hd; [reflexivity | vm_compute; lia] ..].
Qed.

Lemma semicolon_not_in_str_int (n : Z) : has_char ";" (str_int n) = false.
Proof.
  assert (Hu : forall d, has_char ";" (NilZero.string_of_uint d) = false).
  { intros d. destruct d; try reflexivity;
      apply (has_char_uint ";"); vm_compute; lia. }
  unfold str_int. destruct (Z.to_int n); simpl; apply Hu.
Qed.

Lemma forallb_app_true {A} (f : A -> bool) (l1 l2 : list A) :
  forallb f (l1 ++ l2) = true -> forallb f l1 = true /\ forallb f l2 = true.
Proof. rewrite forallb_app. apply andb_true_iff. Qed.

(** [build] agrees with the rendering worded by the specification. *)
Lemma render_spec (q : ClickHouseQuery) : render q = spec_render q.
Proof.
  destruct q as [sel frm whr grp ord lim dsc].
  destruct sel, frm as [[|? ?]|], whr, grp, ord, dsc, lim as [[|?|?]|];
    cbv [spec_render spec_clauses spec_order_clause _order_cols _desc];
    rewrite ?append_empty_r; reflexivity.
Qed.

Lemma present_free (c : ascii) (clauses : list (option string)) :
  Forall (fun o => match o with
                   | Some s => has_char c s = false
                   | None => True
                   end) clauses ->
  forallb (fun s => negb (has_char c s)) (present clauses) = true.
Proof.
  induction 1 as [|o os Ho _ IH]; [reflexivity|].
  destruct o as [s|]; simpl; [rewrite Ho|]; exact IH.
Qed.

Lemma render_free_of_semicolon (q : ClickHouseQuery) :
  fragments_free_of ";" q = true -> has_char ";" (render q) = false.
Proof.
  intros H. rewrite render_spec. unfold fragments_free_of in H.
  apply andb_true_iff in H. destruct H as [Hl Hf].
  apply forallb_app_true in Hl. destruct Hl as [Hsel Hl].
  apply forallb_app_true in Hl. destruct Hl as [Hwhr Hl].
  apply forallb_app_true in Hl. destruct Hl as [Hgrp Hord].
  apply has_char_join; [reflexivity|]. apply present_free.
  destruct q as [sel frm whr grp ord lim dsc].
  cbn [_select_cols _from_table _where_conditions _group_cols _order_cols]
    in Hsel, Hf, Hwhr, Hgrp, Hord.
  unfold spec_clauses. repeat apply Forall_cons; [ .. | apply Forall_nil].
  - unfold spec_select_clause; cbn [_select_cols]. destruct sel; [reflexivity|].
    rewrite has_char_app. now rewrite (has_char_join ";" ", ").
  - unfold spec_from_clause; cbn [_from_table].
    destruct frm as [[|a t]|]; try exact I.
    rewrite has_char_app. apply negb_true_iff in Hf. now rewrite Hf.
  - unfold spec_where_clause; cbn [_where_conditions]. destruct whr; [exact I|].
    rewrite has_char_app. now rewrite (has_char_join ";" " AND ").
  - unfold spec_group_clause; cbn [_group_cols]. destruct grp; [exact I|].
    rewrite has_char_app. now rewrite (has_char_join ";" ", ").
  - unfold spec_order_clause; cbn [_order_cols _desc]. destruct ord; [exact I|].
    rewrite !has_char_app. rewrite (has_char_join ";" ", ") by easy.
    now destruct dsc.
  - unfold spec_limit_clause; cbn [_limit_count].
    destruct lim as [[|p|p]|]; try exact I;
      rewrite has_char_app, semicolon_not_in_str_int; reflexivity.
Qed.

(** C1: [build()] returns the clauses that are present, joined by single
    spaces, in the order SELECT, FROM, WHERE, GROUP BY, ORDER BY, LIMIT:
    the SELECT clause is [SELECT *] when no column was selected, the WHERE
    conditions are joined with [" AND "], column lists with [", "], and a
    clause whose input is empty is left out. The builder adds no
    semicolon: when no fragment the caller passed holds one, neither does
    the result. The builder after [select("a","b")], [from_("t")],
    [where("a>1")], [limit(10)] renders
    [SELECT a, b FROM t WHERE a>1 LIMIT 10]. *)
Theorem build_renders_clauses_in_order :
  (forall q : ClickHouseQuery,
      render q = join " " (present
        [ spec_select_clause q; spec_from_clause q; spec_where_clause q;
          spec_group_clause q; spec_order_clause q; spec_limit_clause q ]))
  /\ (forall q : ClickHouseQuery,
      _select_cols q = [] -> spec_select_clause q = Some "SELECT *")
  /\ (forall q : ClickHouseQuery,
      fragments_free_of ";" q = true -> has_char ";" (render q) = false)
  /\ render (run [Select ["a"; "b"]; From "t"; Where ["a>1"]; Limit 10] init)
     = "SELECT a, b FROM t WHERE a>1 LIMIT 10".
Proof.
  split; [exact render_spec|].
  split; [intros q H; unfold spec_select_clause; now rewrite H|].
  split; [exact render_free_of_semicolon|reflexivity].
Qed.

Lemma build_renders_clauses_in_order_witness :
  let q := run [Select ["a"; "b"]; From "t"; OrderBy ["a"] true] init in
  fragments_free_of ";" q = true /\ has_char ";" (render q) = false.
Proof.
  split; [reflexivity|].
  apply (proj1 (proj2 (proj2 build_renders_clauses_in_order))).
  reflexivity.
Defined.

(** *** Sequences of calls *)

Lemma run_app (cs1 cs2 : list call) (q : ClickHouseQuery) :
  run (cs1 ++ cs2) q = run cs2 (run cs1 q).
Proof.
  revert q. induction cs1 as [|c cs1 IH]; intros q; simpl; [reflexivity|].
  apply IH.
Qed.

(** [build()] writes no field. *)
Lemma build_keeps_state (q : ClickHouseQuery) : snd (build q) = q.
Proof.
  destruct q as [sel frm whr grp ord lim dsc].
  destruct sel, frm as [[|? ?]|], whr, grp, ord, dsc, lim as [[|?|?]|];
    reflexivity.
Qed.

Lemma do_call_build (q : ClickHouseQuery) :
  do_call Build q = (Some (render q), q).
Proof.
  unfold do_call, render. rewrite <- (build_keeps_state q) at 3.
  now destruct (build q).
Qed.

Lemma order_cols_run (cs : list call) (q : ClickHouseQuery) :
  _order_cols (run cs q) = (_order_cols q ++ order_args cs)%list.
Proof.
  revert q. induction cs as [|c cs IH]; intros q; simpl.
  - now rewrite app_nil_r.
  - rewrite IH. destruct c; try reflexivity.
    + cbn. unfold list_extend. now rewrite <- app_assoc.
    + now rewrite do_call_build.
Qed.

Lemma desc_run_without_order_by (cs : list call) (q : ClickHouseQuery) :
  forallb (fun c => negb (is_order_by c)) cs = true ->
  _desc (run cs q) = _desc q.
Proof.
  revert q. induction cs as [|c cs IH]; intros q H; simpl; [reflexivity|].
  simpl in H. apply andb_true_iff in H. destruct H as [Hc Hcs].
  rewrite (IH _ Hcs). destruct c; try reflexivity; try discriminate.
  now rewrite do_call_build.
Qed.

Lemma order_args_without_order_by (cs : list call) :
  forallb (fun c => negb (is_order_by c)) cs = true -> order_args cs = [].
Proof.
  induction cs as [|c cs IH]; intros H; [reflexivity|].
  simpl in H. apply andb_true_iff in H. destruct H as [Hc Hcs].
  destruct c; simpl; try discriminate; auto.
Qed.

(** C8: the [desc] flag is one setting of the builder. After any calls,
    a call [order_by(cols, desc=d)] and then any calls that are not
    [order_by], the builder holds the columns of every [order_by] call,
    its flag is [d] whatever the earlier calls passed, and the ORDER BY
    clause of the rendered string lists all those columns, followed by
    [" DESC"] when [d] is true and by nothing when it is false. *)
Theorem order_by_desc_is_builder_wide
    (q : ClickHouseQuery) (before after : list call)
    (cols : list string) (d : bool) :
  forallb (fun c => negb (is_order_by c)) after = true ->
  let q' := run (before ++ OrderBy cols d :: after) q in
  let all_cols := (_order_cols q ++ order_args before ++ cols)%list in
  _order_cols q' = all_cols
  /\ _desc q' = d
  /\ render q' = join " " (present
       [ spec_select_clause q'; spec_from_clause q'; spec_where_clause q';
         spec_group_clause q';
         match all_cols with
         | [] => None
         | _ => Some ("ORDER BY " ++ join ", " all_cols
                      ++ (if d then " DESC" else ""))
         end;
         spec_limit_clause q' ]).
Proof.
  intros Hafter q' all_cols.
  assert (Hcols : _order_cols q' = all_cols).
  { unfold q', all_cols. rewrite order_cols_run.
    replace (order_args (before ++ OrderBy cols d :: after))
      with (order_args before ++ cols)%list; [reflexivity|].
    clear -Hafter. induction before as [|c cs IH]; simpl.
    - now rewrite (order_args_without_order_by _ Hafter), app_nil_r.
    - destruct c; rewrite <- ?IH; try reflexivity. now rewrite app_assoc. }
  assert (Hdesc : _desc q' = d).
  { unfold q'. rewrite run_app. simpl.
    now rewrite (desc_run_without_order_by _ _ Hafter). }
  split; [exact Hcols|]. split; [exact Hdesc|].
  rewrite render_spec. unfold spec_render, spec_clauses.
  do 2 f_equal. do 4 f_equal.
  unfold spec_order_clause. rewrite Hcols, Hdesc. now destruct all_cols.
Qed.

Lemma order_by_desc_is_builder_wide_witness :
  let q := run [From "t"; OrderBy ["a"] true; OrderBy ["b"] false;
                Limit 5; OrderBy ["c"] true; Select ["x"]] init in
  _order_cols q = ["a"; "b"; "c"] /\ _desc q = true
  /\ render q = "SELECT x FROM t ORDER BY a, b, c DESC LIMIT 5".
Proof.
  exact (order_by_desc_is_builder_wide init
           [From "t"; OrderBy ["a"] true; OrderBy ["b"] false; Limit 5]
           [Select ["x"]] ["c"] true eq_refl).
Defined.

(** C9: the LIMIT block tests the truth value of the stored limit, so
    after [limit(0)], as with the limit never set, [build()] appends no
    LIMIT clause: both render the five other clauses only. A non-zero
    limit is rendered. *)
Theorem zero_limit_renders_no_limit_clause :
  forall q : ClickHouseQuery,
    let five := join " " (present
          [ spec_select_clause q; spec_from_clause q; spec_where_clause q;
            spec_group_clause q; spec_order_clause q ]) in
    (forall parts, fst (build_limit parts (snd (limit 0 q))) = parts)
    /\ (forall parts, fst (build_limit parts (set_limit_count None q)) = parts)
    /\ render (snd (limit 0 q)) = five
    /\ render (set_limit_count None q) = five
    /\ (forall n parts, n <> 0 ->
          fst (build_limit parts (snd (limit n q)))
          = list_append parts ("LIMIT " ++ str_int n)).
Proof.
  intros q five. repeat split; try reflexivity.
  - rewrite render_spec. unfold five. now destruct q.
  - rewrite render_spec. unfold five. now destruct q.
  - intros n parts Hn. cbn. unfold truthy_int.
    destruct (Z.eqb_spec n 0) as [E|_]; [contradiction|reflexivity].
Qed.

Lemma zero_limit_renders_no_limit_clause_witness :
  fst (build_limit ["SELECT *"] (snd (limit 7 init)))
  = ["SELECT *"; "LIMIT 7"].
Proof.
  apply (proj2 (proj2 (proj2 (proj2
           (zero_limit_renders_no_limit_clause init))))).
  lia.
Defined.

Lemma run_skips_build (cs : list call) (q : ClickHouseQuery) :
  run cs q = run (filter (fun c => negb (is_build c)) cs) q.
Proof.
  revert q. induction cs as [|c cs IH]; intros q; [reflexivity|].
  destruct c; cbn [run filter is_build negb]; try apply IH.
  rewrite do_call_build. apply IH.
Qed.

(** C10: [build()] only observes the builder. It leaves all seven fields
    as they were, so a second [build()] returns the same string, and
    [build()] calls placed anywhere among other calls change neither the
    final state nor what is rendered from it. *)
Theorem build_is_pure_observation :
  (forall q : ClickHouseQuery, snd (build q) = q)
  /\ (forall q : ClickHouseQuery,
        fst (build (snd (build q))) = fst (build q))
  /\ (forall (cs : list call) (q : ClickHouseQuery),
        run cs q = run (filter (fun c => negb (is_build c)) cs) q)
  /\ (forall (cs : list call) (q : ClickHouseQuery),
        render (run cs q)
        = render (run (filter (fun c => negb (is_build c)) cs) q)).
Proof.
  split; [exact build_keeps_state|].
  split; [intros q; now rewrite build_keeps_state|].
  split; [exact run_skips_build|].
  intros cs q. now rewrite <- run_skips_build.
Qed.

End BuilderFacts.

(* ------------------------------------------------------------------ *)
(** ** Properties of the client *)

Module ClientFacts.
Import Py PyData Client Examples.

(** *** Dictionaries *)

Lemma get_lookup (row : Row) (key : string) (default : value) :
  get row key default
  = match lookup row key with Some v => v | None => default end.
Proof.
  induction row as [|[k v] rest IH]; simpl; [reflexivity|].
  now destruct (String.eqb k key).
Qed.

Lemma existsb_eqb_In (k : string) (ks : list string) :
  In k ks -> existsb (String.eqb k) ks = true.
Proof.
  intros H. apply existsb_exists. exists k. split; [exact H|].
  apply String.eqb_refl.
Qed.

Lemma get_restrict (ks : list string) (row : Row) (key : string)
    (default : value) :
  In key ks -> get (restrict ks row) key default = get row key default.
Proof.
  intros Hin. induction row as [|[k v] rest IH]; simpl; [reflexivity|].
  destruct (String.eqb_spec k key) as [->|Hne].
  - rewrite (existsb_eqb_In _ _ Hin). simpl. now rewrite String.eqb_refl.
  - destruct (existsb (String.eqb k) ks); simpl; [|exact IH].
    destruct (String.eqb_spec k key); [contradiction|exact IH].
Qed.

Lemma str_get_cell float_repr (row : Row) (col : string) :
  str float_repr (get row col (JStr "")) = cell float_repr row col.
Proof. unfold cell. rewrite get_lookup. now destruct (lookup row col). Qed.

Lemma tsv_body_cells float_repr (columns : list string) (rs : list Row) :
  tsv_body float_repr columns rs
  = join nl (map (fun row => join tab (map (cell float_repr row) columns)) rs).
Proof.
  unfold tsv_body. rewrite map_map. f_equal. apply map_ext. intros row.
  f_equal. apply map_ext. intros col. apply str_get_cell.
Qed.

Lemma tsv_body_restrict float_repr (columns : list string) (rs : list Row) :
  tsv_body float_repr columns (map (restrict columns) rs)
  = tsv_body float_repr columns rs.
Proof.
  unfold tsv_body. rewrite !map_map. f_equal. apply map_ext. intros row.
  f_equal. apply map_ext_in. intros col Hcol. f_equal.
  now apply get_restrict.
Qed.

(** C2: for a non-empty list of rows, [insert] hands [urlopen] one
    request. Its body has one line per row, lines joined by newlines;
    a line has one cell per key of the first row, in that row's key
    order, cells joined by tabs; a cell is [str] of the row's value for
    the key and is empty when the row lacks the key. Keys outside the
    first row's play no part: removing them from every row leaves the
    body as it is. The header [X-ClickHouse-Query] of the request is
    [INSERT INTO table (columns) FORMAT TabSeparated] with the same keys
    joined by [", "]. *)
Theorem insert_builds_tab_separated_request :
  forall server float_repr conn (table : string) (row0 : Row)
         (rest : list Row) (w : World),
    let rs := row0 :: rest in
    let columns := keys row0 in
    let req := insert_request float_repr conn table rs in
    sent (snd (insert server float_repr conn table rs w))
      = (sent w ++ [req])%list
    /\ req_data req
       = join nl (map (fun row =>
                         join tab (map (cell float_repr row) columns)) rs)
    /\ req_data req
       = tsv_body float_repr columns (map (restrict columns) rs)
    /\ header "X-ClickHouse-Query" req
       = Some ("INSERT INTO " ++ table ++ " (" ++ join ", " columns
               ++ ") FORMAT TabSeparated")
    /\ req_method req = "POST".
Proof.
  intros server float_repr conn table row0 rest w rs columns req.
  split.
  { unfold insert, try_except, bind, urlopen, read, lift.
    cbn [truthy_list rs negb]. fold rs. fold req.
    destruct (server (sent w) req) as [e|e|body]; cbn.
    - now destruct (is_URLError e).
    - now destruct (is_URLError e).
    - reflexivity. }
  split; [apply tsv_body_cells|].
  split; [symmetry; apply tsv_body_restrict|].
  split; reflexivity.
Qed.

(** C7: [insert] with an empty list of rows returns [True] and leaves the
    world as it was: no request is handed to [urlopen], no file is
    touched. *)
Theorem insert_nothing_is_silent :
  forall server float_repr conn (table : string) (w : World),
    insert server float_repr conn table [] w = (Returns true, w).
Proof. reflexivity. Qed.

(** *** The monad of the client *)

Lemma bind_returns {A B} (m : M A) (k : A -> M B) (w w' : World) (a : A)
    (out : Result B * World) :
  m w = (Returns a, w') -> k a w' = out -> bind m k w = out.
Proof. intros H <-. unfold bind. now rewrite H. Qed.

Lemma try_except_returns {A} (body : M A) (catches : exn -> bool)
    (handler : exn -> M A) (w w' : World) (a : A) :
  body w = (Returns a, w') ->
  try_except body catches handler w = (Returns a, w').
Proof. intros H. unfold try_except. now rewrite H. Qed.

(** *** [query] *)

Lemma query_run server conn (sql format : string) (w : World) :
  query server conn sql format w
  = (query_outcome (server (sent w) (query_request conn sql format)),
     mkWorld (sent w ++ [query_request conn sql format]) (files w)).
Proof.
  unfold query, try_except, bind, urlopen, read, lift, query_outcome,
    list_append.
  destruct (server (sent w) (query_request conn sql format))
    as [e|e|[[[data|]|type]|e]]; cbn; try reflexivity;
    now destruct (is_URLError e).
Qed.




(** *** [create_table] *)



(** *** [table_stats] *)

Lemma truediv_not_numeric (v : value) (d : Z) :
  numeric v = false -> exists e, truediv v d = Raises e.
Proof. destruct v; try discriminate; intros _; eexists; reflexivity. Qed.

(** C3, as the code has it: [table_stats] never raises, and it leaves the
    world as its one [query] leaves it. When the query raises, or returns
    no row, the result is the zeroed record. When the query returns rows
    and both byte counts of the first row divide by 1,048,576, the result
    holds that row's [rows] value (0 if absent) and the two quotients.
    When a byte count does not divide, as a string or [None] does not,
    the [TypeError] is swallowed like any exception and the result is the
    zeroed record. *)
Theorem table_stats_never_raises :
  forall server conn (name : string) (w : World),
    let q := query server conn (table_stats_sql name) "JSON" w in
    let stats := table_stats server conn name w in
    (exists st, fst stats = Returns st)
    /\ snd stats = snd q
    /\ (forall e, fst q = Raises e -> fst stats = Returns zero_stats)
    /\ (fst q = Returns [] -> fst stats = Returns zero_stats)
    /\ (forall row rest c u,
          fst q = Returns (row :: rest) ->
          truediv (get row "compressed_size" (JInt 0)) 1048576 = Returns c ->
          truediv (get row "uncompressed_size" (JInt 0)) 1048576 = Returns u ->
          fst stats = Returns (mkStats (get row "rows" (JInt 0)) c u))
    /\ (forall row rest,
          fst q = Returns (row :: rest) ->
          numeric (get row "compressed_size" (JInt 0)) = false
          \/ numeric (get row "uncompressed_size" (JInt 0)) = false ->
          fst stats = Returns zero_stats).
Proof.
  intros server conn name w q stats.
  unfold stats, table_stats, try_except, bind, lift. fold q.
  destruct q as [[[|row rest]|e] w']; cbn [fst snd].
  - repeat split; try (eexists; reflexivity); intros; discriminate.
  - change (1024 * 1024) with 1048576.
    destruct (truediv (get row "compressed_size" (JInt 0)) 1048576)
      as [c|ec] eqn:Ec;
    [destruct (truediv (get row "uncompressed_size" (JInt 0)) 1048576)
      as [u|eu] eqn:Eu|];
    cbn; repeat split; try (eexists; reflexivity); try discriminate;
      try (intros r0 rest0 c0 u0 H Hc Hu; inversion H; subst r0 rest0;
           congruence);
      try (intros r0 rest0 H Hn; reflexivity).
    + intros r0 rest0 H [Hn|Hn]; inversion H; subst r0 rest0;
        destruct (truediv_not_numeric _ 1048576 Hn) as [e He]; congruence.
  - repeat split; try (eexists; reflexivity); intros; discriminate.
Qed.

Lemma table_stats_never_raises_witness :
  fst (table_stats (answers [stats_row]) conn0 "events" world0)
  = Returns (mkStats (JInt 5)
               (JFloat (S754_finite false 4503599627370496 (-51)))
               (JFloat (S754_finite false 4503599627370496 (-50)))).
Proof.
  apply (proj1 (proj2 (proj2 (proj2 (proj2
           (table_stats_never_raises (answers [stats_row]) conn0
              "events" world0))))) stats_row []);
    vm_compute; reflexivity.
Defined.

(** Against C3 as worded: the result of the query is not empty and its
    first row holds ["5"] for [rows], yet the byte counts are strings, the
    division raises, and the record returned is the zeroed one. *)
Lemma table_stats_zeroes_undividable_row :
  fst (query (answers [quoted_stats_row]) conn0
         (table_stats_sql "events") "JSON" world0)
    = Returns [quoted_stats_row]
  /\ get quoted_stats_row "rows" (JInt 0) = JStr "5"
  /\ fst (table_stats (answers [quoted_stats_row]) conn0 "events" world0)
     = Returns zero_stats
  /\ rows zero_stats <> JStr "5".
Proof. repeat split; try reflexivity; discriminate. Qed.

(** *** [export_csv] *)

Lemma join_empty_cons (s : string) (l : list string) :
  join "" (s :: l) = s ++ join "" l.
Proof.
  destruct l as [|s' l]; [symmetry; apply BuilderFacts.append_empty_r|].
  reflexivity.
Qed.

Lemma append_assoc (a b c : string) : (a ++ b) ++ c = a ++ b ++ c.
Proof. induction a as [|x a IH]; simpl; [reflexivity | now rewrite IH]. Qed.

Lemma dict_to_list_within (fieldnames : list string) (row : Row) :
  forallb (fun k => existsb (String.eqb k) fieldnames) (keys row) = true ->
  dict_to_list fieldnames row
  = Returns (map (fun key => get row key (JStr "")) fieldnames).
Proof.
  intros H. unfold dict_to_list.
  replace (filter _ (keys row)) with (@nil string); [reflexivity|].
  induction (keys row) as [|k ks IH]; [reflexivity|].
  simpl in H. apply andb_true_iff in H. destruct H as [Hk Hks].
  simpl. rewrite Hk. simpl. exact (IH Hks).
Qed.

Lemma writerows_accepts float_repr csv_record (path : string)
    (fieldnames : list string) (row : Row) (rest : list Row) (w : World) :
  forallb (fun k => existsb (String.eqb k) fieldnames) (keys row) = true ->
  writerows float_repr csv_record path fieldnames (row :: rest) w
  = writerows float_repr csv_record path fieldnames rest
      (snd (write path
              (csv_record
                 (map (fun k => csv_field float_repr (get row k (JStr "")))
                      fieldnames)) w)).
Proof.
  intros H. cbn [writerows]. unfold bind, lift.
  rewrite (dict_to_list_within _ _ H), map_map. reflexivity.
Qed.

Lemma writerows_within float_repr csv_record (path : string)
    (fieldnames : list string) (rs : list Row) :
  keys_within fieldnames rs = true ->
  forall (w : World) (old : string),
    files w path = Some old ->
    let out := writerows float_repr csv_record path fieldnames rs w in
    fst out = Returns tt
    /\ sent (snd out) = sent w
    /\ files (snd out) path
       = Some (old ++ csv_rows float_repr csv_record fieldnames rs)
    /\ (forall p, p <> path -> files (snd out) p = files w p).
Proof.
  induction rs as [|row rest IH]; intros H w old Hold; cbv zeta.
  - cbn. rewrite BuilderFacts.append_empty_r. auto.
  - simpl in H. apply andb_true_iff in H. destruct H as [Hrow Hrest].
    rewrite (writerows_accepts _ _ _ _ _ _ _ Hrow).
    set (record := csv_record _).
    set (w1 := snd (write path record w)).
    assert (H1 : files w1 path = Some (old ++ record)).
    { unfold w1. cbn. now rewrite String.eqb_refl, Hold. }
    destruct (IH Hrest w1 _ H1) as (Hr & Hs & Hf & Ho).
    repeat split; [exact Hr | exact Hs | |].
    + rewrite Hf. unfold csv_rows. cbn [map]. rewrite join_empty_cons.
      now rewrite append_assoc.
    + intros p Hp. rewrite (Ho p Hp). unfold w1. cbn.
      destruct (String.eqb_spec p path); [contradiction|reflexivity].
Qed.

(** C6, as the code has it: let the query return [results], let the
    output path open for writing, and let no row have a key outside the
    first row's keys. Then [export_csv] returns [True], sends nothing
    beyond the query, touches no other file, and leaves at the path: the
    empty file when [results] is empty; otherwise the header record made
    of the first row's keys in order, followed by one record per row,
    each with the row's fields in that key order. *)
Theorem export_csv_writes_header_and_rows :
  forall server float_repr csv_record open_error conn
         (sql output_path : string) (w w1 : World) (results : list Row),
    query server conn sql "JSON" w = (Returns results, w1) ->
    open_error output_path = None ->
    keys_within (match results with row0 :: _ => keys row0 | [] => [] end)
                results = true ->
    let out := export_csv server float_repr csv_record open_error conn
                          sql output_path w in
    fst out = Returns true
    /\ sent (snd out) = sent w1
    /\ files (snd out) output_path
       = Some (match results with
               | [] => ""
               | row0 :: _ =>
                   csv_record (keys row0)
                   ++ csv_rows float_repr csv_record (keys row0) results
               end)
    /\ (forall p, p <> output_path -> files (snd out) p = files w1 p).
Proof.
  intros server float_repr csv_record open_error conn sql output_path
         w w1 results Hq Hopen Hkeys out.
  assert (Hopened : open_w open_error output_path w1
                    = (Returns tt,
                       mkWorld (sent w1)
                         (fun p => if String.eqb p output_path then Some ""
                                   else files w1 p))).
  { unfold open_w. now rewrite Hopen. }
  destruct results as [|row0 rest].
  - assert (E : out = (Returns true,
                       snd (write output_path ""
                              (snd (open_w open_error output_path w1))))).
    { unfold out, export_csv. apply try_except_returns.
      eapply bind_returns; [exact Hq|]. cbn beta iota.
      eapply bind_returns; [exact Hopened|].
      eapply bind_returns; [reflexivity|].
      rewrite Hopened. reflexivity. }
    rewrite E, Hopened. cbn. rewrite String.eqb_refl. repeat split.
    intros p Hp. destruct (String.eqb_spec p output_path);
      [contradiction|reflexivity].
  - set (w2 := snd (write output_path (csv_record (keys row0))
                      (snd (open_w open_error output_path w1)))).
    assert (H2 : files w2 output_path = Some (csv_record (keys row0))).
    { unfold w2. rewrite Hopened. cbn. now rewrite !String.eqb_refl. }
    destruct (writerows_within float_repr csv_record output_path
                (keys row0) (row0 :: rest) Hkeys w2 _ H2)
      as (Hr & Hs & Hf & Ho).
    destruct (writerows float_repr csv_record output_path (keys row0)
                (row0 :: rest) w2) as [r w3] eqn:Ew.
    cbn [fst snd] in Hr, Hs, Hf, Ho. subst r.
    assert (E : out = (Returns true, w3)).
    { unfold out, export_csv. apply try_except_returns.
      eapply bind_returns; [exact Hq|]. cbn beta iota.
      eapply bind_returns; [exact Hopened|].
      eapply bind_returns; [reflexivity|].
      eapply bind_returns; [|reflexivity].
      rewrite <- Ew. unfold w2. now rewrite Hopened. }
    rewrite E. cbn [fst snd].
    repeat split; [rewrite Hs; unfold w2; now rewrite Hopened | exact Hf |].
    intros p Hp. rewrite (Ho p Hp). unfold w2. rewrite Hopened. cbn.
    destruct (String.eqb_spec p output_path); [contradiction|reflexivity].
Qed.

Lemma export_csv_writes_header_and_rows_witness :
  let out := export_csv (answers two_rows) repr0 excel_record always_opens
                        conn0 "SELECT a, b FROM t" "out.csv" world0 in
  fst out = Returns true
  /\ files (snd out) "out.csv"
     = Some ("a,b" ++ cr ++ nl
             ++ "1," ++ String dquote ("x,y" ++ String dquote (cr ++ nl))
             ++ "True," ++ cr ++ nl).
Proof.
  destruct (export_csv_writes_header_and_rows (answers two_rows) repr0
              excel_record always_opens conn0 "SELECT a, b FROM t"
              "out.csv" world0 _ two_rows eq_refl eq_refl eq_refl)
    as (Hr & _ & Hf & _).
  split; [exact Hr | exact Hf].
Defined.

(** Against C6 as worded: the result is not empty, yet [export_csv] does
    not return [True]. The second row holds a key outside the header,
    the writer raises [ValueError], and [export_csv] raises the export
    failure. *)
Lemma export_csv_raises_on_extra_key :
  let out := export_csv (answers uneven_rows) repr0 excel_record
                        always_opens conn0 "SELECT 1" "out.csv" world0 in
  fst (query (answers uneven_rows) conn0 "SELECT 1" "JSON" world0)
    = Returns uneven_rows
  /\ always_opens "out.csv" = None
  /\ fst out
     = Raises (mkExn Exception_
                 "Failed to export CSV: dict contains fields not in fieldnames: 'b'")
  /\ fst out <> Returns true.
Proof. repeat split; try reflexivity; discriminate. Qed.

End ClientFacts.

(* ------------------------------------------------------------------ *)
(** ** Further properties of the query builder *)

Module BuilderLaws.
Import Py Builder Notions.

Lemma prefix_append (p s t : string) :
  prefix p s = true -> prefix p (s ++ t) = true.
Proof.
  revert s. induction p as [|a p IH]; intros s H;
    [now destruct (s ++ t)|].
  destruct s as [|b s]; [discriminate|]. simpl in *.
  destruct (ascii_dec a b); [now apply IH | discriminate].
Qed.

Lemma prefix_of_append (p t : string) : prefix p (p ++ t) = true.
Proof.
  induction p as [|a p IH]; [now destruct t|].
  simpl. destruct (ascii_dec a a); [exact IH | contradiction].
Qed.

Lemma prefix_join_head (p sep s : string) (l : list string) :
  prefix p s = true -> prefix p (join sep (s :: l)) = true.
Proof.
  intros H. destruct l as [|s' l]; [exact H|].
  change (prefix p (s ++ sep ++ join sep (s' :: l)) = true).
  now apply prefix_append.
Qed.

(** X1: whatever calls were made and in whatever order, the builder ends
    in the state read off the calls clause by clause: each list holds what
    it held followed by the arguments of its calls in call order, the table
    and the limit are those of the last [from_] and [limit] call, the flag
    is that of the last [order_by] call. *)
Theorem run_final_state (cs : list call) (q : ClickHouseQuery) :
  run cs q
  = mkQuery (_select_cols q ++ select_args cs)
            (last_from cs (_from_table q))
            (_where_conditions q ++ where_args cs)
            (_group_cols q ++ group_args cs)
            (_order_cols q ++ order_args cs)
            (last_limit cs (_limit_count q))
            (last_desc cs (_desc q)).
Proof.
  revert q. induction cs as [|c cs IH]; intros q.
  - destruct q; cbn. now rewrite !app_nil_r.
  - cbn [run]. rewrite IH. destruct c;
      try (rewrite BuilderFacts.do_call_build);
      destruct q; cbn; unfold list_extend; rewrite <- ?app_assoc; reflexivity.
Qed.

(** X2: two consecutive calls that write different clauses can be swapped:
    the builder ends in the same state, so the clause order of the rendered
    string does not depend on the order of the calls. *)
Theorem calls_on_different_clauses_commute
    (c1 c2 : call) (cs : list call) (q : ClickHouseQuery) :
  clause_eqb (touches c1) (touches c2) = false ->
  run (c1 :: c2 :: cs) q = run (c2 :: c1 :: cs) q
  /\ render (run (c1 :: c2 :: cs) q) = render (run (c2 :: c1 :: cs) q).
Proof.
  intros H.
  assert (E : run (c1 :: c2 :: cs) q = run (c2 :: c1 :: cs) q).
  { cbn [run]. f_equal.
    destruct c1, c2; try discriminate H;
      rewrite ?BuilderFacts.do_call_build; cbn [snd];
      rewrite ?BuilderFacts.do_call_build; reflexivity. }
  split; [exact E | now rewrite E].
Qed.

Lemma calls_on_different_clauses_commute_witness :
  render (run [Limit 3; Where ["a>1"]; From "t"] init)
  = render (run [Where ["a>1"]; Limit 3; From "t"] init).
Proof.
  apply (proj2 (calls_on_different_clauses_commute
                  (Limit 3) (Where ["a>1"]) [From "t"] init eq_refl)).
Defined.

(** X3: an extending call without arguments leaves the builder as it was;
    [order_by] without columns still overwrites the flag, and so turns
    the direction of the columns already held. *)
Theorem calls_without_arguments (q : ClickHouseQuery) (d : bool) :
  run [Select []] q = q
  /\ run [Where []] q = q
  /\ run [GroupBy []] q = q
  /\ run [OrderBy [] d] q = set_desc d q
  /\ (_order_cols q <> [] ->
      spec_order_clause (run [OrderBy [] d] q)
      = Some ("ORDER BY " ++ join ", " (_order_cols q)
              ++ (if d then " DESC" else ""))).
Proof.
  destruct q as [sel frm whr grp ord lim dsc].
  cbn. unfold list_extend. rewrite !app_nil_r.
  repeat split. intros H. unfold spec_order_clause. cbn.
  destruct ord; [contradiction|reflexivity].
Qed.

Lemma calls_without_arguments_witness :
  spec_order_clause (run [OrderBy ["a"] false; OrderBy [] true] init)
  = Some "ORDER BY a DESC".
Proof.
  apply (proj2 (proj2 (proj2 (proj2
           (calls_without_arguments (run [OrderBy ["a"] false] init) true))))).
  discriminate.
Defined.

(** X4: [from_] with the empty string renders like a builder whose table
    was never set: the FROM clause is left out, and a table set before is
    lost. *)
Theorem empty_table_renders_no_from (cs : list call) (q : ClickHouseQuery) :
  render (run (cs ++ [From ""]) q) = render (set_from_table None (run cs q))
  /\ spec_from_clause (run (cs ++ [From ""]) q) = None.
Proof.
  rewrite BuilderFacts.run_app. cbn [run do_call snd].
  destruct (run cs q) as [sel frm whr grp ord lim dsc].
  split; [|reflexivity].
  rewrite !BuilderFacts.render_spec. reflexivity.
Qed.

(** X5: every rendered string begins with the SELECT clause, whatever the
    state of the builder, a table or not. *)
Theorem render_begins_with_select (q : ClickHouseQuery) :
  prefix "SELECT " (render q) = true.
Proof.
  rewrite BuilderFacts.render_spec. unfold spec_render, spec_clauses.
  cbn [present]. unfold spec_select_clause.
  destruct (_select_cols q); apply prefix_join_head;
    [reflexivity | apply (prefix_of_append "SELECT ")].
Qed.

End BuilderLaws.

(* ------------------------------------------------------------------ *)
(** ** Further properties of the client *)

Module ClientLaws.
Import Py PyData Client Examples Metadata Notions.

(** *** Requests *)

Lemma with_credentials_suffix (conn : ClickHouseConnection) (url : string) :
  with_credentials conn url = url ++ credentials conn.
Proof.
  unfold with_credentials, credentials.
  destruct (truthy_str (user conn)), (truthy_str (password conn)); cbn [append];
    rewrite ?BuilderFacts.append_empty_r, ?ClientFacts.append_assoc;
    reflexivity.
Qed.

(** X6: [query] hands [urlopen] exactly one request whatever the reply, and
    touches no file: a POST whose body is the SQL text as given and whose
    content type is [text/plain]. When the body of the response is a JSON
    object, [query] returns its member [data], and the empty list when the
    object has none; for JSON of another type it raises [AttributeError],
    which the handler does not wrap. *)
Theorem query_sends_one_post :
  forall server conn (sql format : string) (w : World),
    let req := query_request conn sql format in
    let out := query server conn sql format w in
    sent (snd out) = (sent w ++ [req])%list
    /\ files (snd out) = files w
    /\ req_data req = sql
    /\ req_method req = "POST"
    /\ header "Content-Type" req = Some "text/plain"
    /\ (forall data,
          server (sent w) req = Responds (Returns (JsonObject data)) ->
          fst out = Returns (match data with Some rs => rs | None => [] end))
    /\ (forall type,
          server (sent w) req = Responds (Returns (JsonOther type)) ->
          exists e, fst out = Raises e /\ exn_cls e = AttributeError).
Proof.
  intros server conn sql format w req out. unfold out.
  rewrite ClientFacts.query_run. fold req. cbn [fst snd sent files].
  repeat split.
  - intros data ->. now destruct data.
  - intros type ->. eexists. split; reflexivity.
Qed.

Lemma query_sends_one_post_witness :
  fst (query (answers two_rows) conn0 "SELECT a, b FROM t" "JSON" world0)
  = Returns two_rows.
Proof.
  apply (proj1 (proj2 (proj2 (proj2 (proj2 (proj2
           (query_sends_one_post (answers two_rows) conn0
              "SELECT a, b FROM t" "JSON" world0))))))
           (Some two_rows)).
  reflexivity.
Defined.

(** X7: the URL of [query] is the base URL, the database and the format,
    followed by the credentials; the URL of [insert] is the same without
    the format. The user and the password are each appended only when not
    empty, so with both empty the URL carries no credentials. Nothing is
    escaped. *)
Theorem urls_carry_credentials_when_set :
  forall float_repr conn (sql format table : string) (rs : list Row),
    req_url (query_request conn sql format)
    = (base_url conn ++ "/?database=" ++ database conn
       ++ "&format=" ++ format) ++ credentials conn
    /\ req_url (insert_request float_repr conn table rs)
       = (base_url conn ++ "/?database=" ++ database conn)
         ++ credentials conn
    /\ credentials conn
       = match user conn, password conn with
         | EmptyString, EmptyString => ""
         | EmptyString, p => "&password=" ++ p
         | u, EmptyString => "&user=" ++ u
         | u, p => "&user=" ++ u ++ "&password=" ++ p
         end.
Proof.
  intros float_repr conn sql format table rs.
  split; [apply with_credentials_suffix|].
  split; [apply with_credentials_suffix|].
  unfold credentials.
  destruct (user conn) as [|a u], (password conn) as [|b p];
    cbn [truthy_str]; try reflexivity.
  apply BuilderFacts.append_empty_r.
Qed.

(** *** [insert] *)

(** X8: for a non-empty list of rows, [insert] returns [True] once a
    response has arrived and its body has been read: the body is not
    parsed, so a body that [query] would fail to decode is fine here. When
    [urlopen] or the reading of the response raises, a [URLError] is raised
    anew as the generic ["ClickHouse insert failed: "] error with the cause
    in its message, and an exception of another class passes unwrapped. No
    file is touched. *)
Theorem insert_ignores_response_body :
  forall server float_repr conn (table : string) (row0 : Row)
         (rest : list Row) (w : World),
    let req := insert_request float_repr conn table (row0 :: rest) in
    let out := insert server float_repr conn table (row0 :: rest) w in
    (forall body, server (sent w) req = Responds body ->
                  fst out = Returns true)
    /\ (forall e, server (sent w) req = Fails e
                  \/ server (sent w) req = Breaks e ->
                  is_URLError e = true ->
                  fst out
                  = Raises (mkExn Exception_
                              ("ClickHouse insert failed: " ++ exn_str e)))
    /\ (forall e, server (sent w) req = Fails e
                  \/ server (sent w) req = Breaks e ->
                  is_URLError e = false ->
                  fst out = Raises e)
    /\ files (snd out) = files w.
Proof.
  intros server float_repr conn table row0 rest w req out.
  unfold out, insert, try_except, bind, urlopen, read, lift.
  cbn [truthy_list negb]. fold req.
  destruct (server (sent w) req) as [e|e|body].
  - destruct (is_URLError e) eqn:E; cbn; rewrite ?E; cbn;
      repeat split; try discriminate;
      intros e' [H|H]; inversion H; subst; congruence.
  - destruct (is_URLError e) eqn:E; cbn; rewrite ?E; cbn;
      repeat split; try discriminate;
      intros e' [H|H]; inversion H; subst; congruence.
  - cbn. repeat split; intros e [H|H]; discriminate.
Qed.

Lemma insert_ignores_response_body_witness :
  fst (insert not_json repr0 conn0 "t" [[("a", JInt 1)]] world0)
  = Returns true.
Proof.
  apply (proj1 (insert_ignores_response_body not_json repr0 conn0 "t"
                  [("a", JInt 1)] [] world0) (Raises decode_error)).
  reflexivity.
Defined.

(** X9: the body of [insert] is not escaped. A string value that holds a
    tab gives the very body that two cells give, and a value that holds a
    newline the body that two rows give, so the server cannot tell them
    apart. *)
Theorem insert_body_is_not_escaped :
  forall float_repr conn (table c c1 c2 x y : string),
    c1 <> c2 ->
    req_data (insert_request float_repr conn table
                [[(c, JStr (x ++ tab ++ y))]])
    = req_data (insert_request float_repr conn table
                  [[(c1, JStr x); (c2, JStr y)]])
    /\ req_data (insert_request float_repr conn table
                   [[(c, JStr (x ++ nl ++ y))]])
       = req_data (insert_request float_repr conn table
                     [[(c, JStr x)]; [(c, JStr y)]]).
Proof.
  intros float_repr conn table c c1 c2 x y Hne.
  cbn. rewrite !String.eqb_refl.
  destruct (String.eqb_spec c1 c2) as [E|_]; [contradiction|].
  split; reflexivity.
Qed.

Lemma insert_body_is_not_escaped_witness :
  req_data (insert_request repr0 conn0 "t" [[("a", JStr ("1" ++ tab ++ "2"))]])
  = req_data (insert_request repr0 conn0 "t"
                [[("a", JStr "1"); ("b", JStr "2")]]).
Proof.
  apply (proj1 (insert_body_is_not_escaped repr0 conn0 "t" "a" "a" "b"
                  "1" "2" ltac:(discriminate))).
Defined.

(** X10: when the first row is an empty dictionary, the statement of
    [insert] has an empty column list and the values of all later rows are
    lost: the body is one newline per later row and nothing else. *)
Theorem insert_after_empty_first_row :
  forall float_repr conn (table : string) (rest : list Row),
    let req := insert_request float_repr conn table ([] :: rest) in
    header "X-ClickHouse-Query" req
    = Some ("INSERT INTO " ++ table ++ " () FORMAT TabSeparated")
    /\ req_data req = join "" (repeat nl (List.length rest)).
Proof.
  intros float_repr conn table rest req. split; [reflexivity|].
  cbn. induction rest as [|row rest IH]; [reflexivity|].
  cbn [map List.length repeat]. rewrite ClientFacts.join_empty_cons.
  destruct rest as [|row' rest]; [reflexivity|].
  cbn [map] in *. rewrite <- IH. reflexivity.
Qed.

(** X11: [create_table] returns [True] exactly when the body of the
    response is a JSON object. A response whose body is not JSON, an empty
    body included, gives [False] like an unreachable server does, although
    the server took the statement. *)
Theorem create_table_needs_json_object :
  forall server conn (name schema engine order_by : string) (w : World),
    let req :=
      query_request conn (create_table_sql name schema engine order_by)
                    "JSON" in
    fst (create_table server conn name schema engine order_by w)
    = Returns (match server (sent w) req with
               | Responds (Returns (JsonObject _)) => true
               | _ => false
               end).
Proof.
  intros server conn name schema engine order_by w req.
  unfold create_table, try_except, bind. rewrite ClientFacts.query_run.
  fold req.
  destruct (server (sent w) req) as [e|e|[[[data|]|type]|e]]; cbn;
    try reflexivity; now destruct (is_URLError e).
Qed.

(** *** [table_stats] *)

(** X12: when the first row of a non-empty result lacks both byte counts,
    each defaults to 0 and is divided all the same: the sizes are the
    float 0.0, next to the row's [rows] value. *)
Theorem table_stats_defaults_missing_sizes :
  forall server conn (name : string) (w : World) (row : Row)
         (rest : list Row),
    fst (query server conn (table_stats_sql name) "JSON" w)
      = Returns (row :: rest) ->
    lookup row "compressed_size" = None ->
    lookup row "uncompressed_size" = None ->
    fst (table_stats server conn name w)
    = Returns (mkStats (get row "rows" (JInt 0)) plain_zero plain_zero).
Proof.
  intros server conn name w row rest Hq Hc Hu.
  unfold table_stats, try_except, bind, lift.
  destruct (query server conn (table_stats_sql name) "JSON" w) as [r w'].
  cbn [fst] in Hq. subst r.
  rewrite (ClientFacts.get_lookup row "compressed_size"), Hc.
  rewrite (ClientFacts.get_lookup row "uncompressed_size"), Hu.
  reflexivity.
Qed.

Lemma table_stats_defaults_missing_sizes_witness :
  fst (table_stats (answers [[("rows", JInt 7)]]) conn0 "events" world0)
  = Returns (mkStats (JInt 7) plain_zero plain_zero).
Proof.
  apply (table_stats_defaults_missing_sizes (answers [[("rows", JInt 7)]])
           conn0 "events" world0 [("rows", JInt 7)] []); reflexivity.
Defined.

(** *** [describe_table] and [list_tables] *)

Lemma column_all_present (key : string) (results : list Row) :
  (forall row, In row results -> lookup row key <> None) ->
  column key results = Some (map (fun row => get row key JNull) results).
Proof.
  induction results as [|row rest IH]; intros H; [reflexivity|].
  cbn [column map]. rewrite ClientFacts.get_lookup.
  destruct (lookup row key) as [v|] eqn:E.
  - rewrite IH; [reflexivity|]. intros r Hr. apply H. now right.
  - exfalso. apply (H row); [now left | exact E].
Qed.

Lemma column_one_missing (key : string) (results : list Row) :
  (exists row, In row results /\ lookup row key = None) ->
  column key results = None.
Proof.
  induction results as [|row rest IH]; intros [r [Hin Hr]]; [destruct Hin|].
  cbn [column]. destruct Hin as [->|Hin]; [now rewrite Hr|].
  destruct (lookup row key); [|reflexivity].
  rewrite IH; [reflexivity|]. now exists r.
Qed.

(** X13: [list_tables] returns the [name] value of every row, in the order
    of the result, when every row has the key. One row without it makes
    the whole call end in [KeyError], with no name returned. *)
Theorem list_tables_returns_names :
  forall server conn (db : option string) (w w' : World)
         (results : list Row),
    query server conn (list_tables_sql (database_or_default conn db))
          "JSON" w = (Returns results, w') ->
    ((forall row, In row results -> lookup row "name" <> None) ->
     list_tables server conn db w
     = (Normal (Returns (map (fun row => get row "name" JNull) results)), w'))
    /\ ((exists row, In row results /\ lookup row "name" = None) ->
        list_tables server conn db w = (RaisesKeyError "name", w')).
Proof.
  intros server conn db w w' results Hq. unfold list_tables. rewrite Hq.
  split; intros H.
  - now rewrite (column_all_present _ _ H).
  - now rewrite (column_one_missing _ _ H).
Qed.

Lemma list_tables_returns_names_witness :
  fst (list_tables
         (answers [[("name", JStr "events")]; [("name", JStr "users")]])
         conn0 None world0)
  = Normal (Returns [JStr "events"; JStr "users"]).
Proof.
  refine (f_equal fst
            (proj1 (list_tables_returns_names
                      (answers [[("name", JStr "events")];
                                [("name", JStr "users")]])
                      conn0 None world0 _ _ eq_refl) _)).
  intros row [<-|[<-|[]]]; discriminate.
Defined.

(** X14: the database argument of [list_tables] is tested for truth, not
    for [None]: without an argument, and with the empty string, the
    statement names the database of the connection. *)
Theorem list_tables_defaults_database :
  forall server conn (w : World),
    list_tables server conn (Some "") w = list_tables server conn None w
    /\ list_tables server conn (Some (database conn)) w
       = list_tables server conn None w
    /\ sent (snd (list_tables server conn None w))
       = (sent w ++ [query_request conn
                       ("SELECT name FROM system.tables WHERE database = '"
                        ++ database conn ++ "'") "JSON"])%list.
Proof.
  intros server conn w. split; [reflexivity|]. split.
  - unfold list_tables, database_or_default.
    now destruct (truthy_str (database conn)).
  - unfold list_tables. cbn [database_or_default].
    rewrite ClientFacts.query_run. unfold list_tables_sql.
    destruct (query_outcome _) as [results|e]; [|reflexivity].
    now destruct (column "name" results).
Qed.

(** X15: [describe_table] and [list_tables] swallow nothing. When the
    server cannot be reached, both raise the generic query failure that
    [query] raises, with the cause in its message. *)
Theorem metadata_readers_propagate :
  forall server conn (name : string) (db : option string) (w : World)
         (e : exn),
    is_URLError e = true ->
    (server (sent w) (query_request conn ("DESCRIBE TABLE " ++ name) "JSON")
       = Fails e ->
     fst (describe_table server conn name w)
     = Raises (mkExn Exception_ ("ClickHouse query failed: " ++ exn_str e)))
    /\ (server (sent w)
          (query_request conn
             (list_tables_sql (database_or_default conn db)) "JSON")
          = Fails e ->
        fst (list_tables server conn db w)
        = Normal (Raises (mkExn Exception_
                            ("ClickHouse query failed: " ++ exn_str e)))).
Proof.
  intros server conn name db w e He. split; intros H.
  - unfold describe_table. rewrite ClientFacts.query_run, H. cbn.
    now rewrite He.
  - unfold list_tables. rewrite ClientFacts.query_run, H. cbn.
    now rewrite He.
Qed.

Lemma metadata_readers_propagate_witness :
  fst (describe_table unreachable conn0 "events" world0)
  = Raises (mkExn Exception_
              ("ClickHouse query failed: " ++ exn_str connection_refused)).
Proof.
  apply (proj1 (metadata_readers_propagate unreachable conn0 "events" None
                  world0 connection_refused eq_refl)).
  reflexivity.
Defined.

(** *** [execute_file] *)



Lemma universal_newlines_without_cr (text : string) :
  has_char (ascii_of_nat 13) text = false -> universal_newlines text = text.
Proof.
  induction text as [|c rest IH]; intros H; [reflexivity|].
  cbn [has_char] in H. apply orb_false_iff in H. destruct H as [Hc Hrest].
  cbn [universal_newlines]. rewrite Hc. now rewrite (IH Hrest).
Qed.

(** X17: [execute_file] on a file sends its text, read in text mode, as the
    body of one request, unsplit: the line ends CR LF and CR arrive as LF,
    and a text without CR arrives as it is. The files are left alone. It
    returns [True] when [query] on that text returns; what [query] raises
    comes back wrapped once more, so an unreachable server gives
    ["Failed to execute file path: ClickHouse query failed: cause"]. *)
Theorem execute_file_runs_whole_text :
  forall server conn repr_str (path text : string) (w : World),
    files w path = Some text ->
    let sql := universal_newlines text in
    let q := query server conn sql "JSON" w in
    let out := execute_file server conn repr_str path w in
    sent (snd out) = (sent w ++ [query_request conn sql "JSON"])%list
    /\ req_data (query_request conn sql "JSON") = sql
    /\ (has_char (ascii_of_nat 13) text = false -> sql = text)
    /\ files (snd out) = files w
    /\ (forall rs, fst q = Returns rs -> fst out = Returns true)
    /\ (forall e, fst q = Raises e ->
          fst out
          = Raises (mkExn Exception_
                      ("Failed to execute file " ++ path ++ ": "
                       ++ exn_str e)))
    /\ (forall e, server (sent w) (query_request conn sql "JSON") = Fails e ->
          is_URLError e = true ->
          fst out
          = Raises (mkExn Exception_
                      ("Failed to execute file " ++ path
                       ++ ": ClickHouse query failed: " ++ exn_str e))).
Proof.
  intros server conn repr_str path text w Hf sql q out.
  unfold out, execute_file, try_except, bind, read_file. rewrite Hf.
  fold sql. fold q. unfold q. rewrite ClientFacts.query_run. cbn [fst snd].
  destruct (query_outcome (server (sent w) (query_request conn sql "JSON")))
    as [rs|e] eqn:E; cbn [fst snd sent files is_Exception raise ret].
  - repeat split; try discriminate.
    + apply universal_newlines_without_cr.
    + intros e H He. rewrite H in E. cbn in E. now rewrite He in E.
  - repeat split; try discriminate.
    + apply universal_newlines_without_cr.
    + intros e' H. now inversion H.
    + intros e' H He. rewrite H in E. cbn in E. rewrite He in E.
      now inversion E.
Qed.

Lemma execute_file_runs_whole_text_witness :
  let text := "SELECT 1;" ++ cr ++ nl ++ "SELECT 2" in
  let w := mkWorld [] (fun p => if String.eqb p "schema.sql"
                                then Some text else None) in
  let out := execute_file unreachable conn0 repr_key "schema.sql" w in
  fst out
  = Raises (mkExn Exception_
              ("Failed to execute file schema.sql: ClickHouse query failed: "
               ++ exn_str connection_refused))
  /\ sent (snd out)
     = [query_request conn0 ("SELECT 1;" ++ nl ++ "SELECT 2") "JSON"].
Proof.
  intros text w out.
  pose proof (execute_file_runs_whole_text unreachable conn0 repr_key
                "schema.sql" text w eq_refl) as H.
  split.
  - apply (proj2 (proj2 (proj2 (proj2 (proj2 (proj2 H)))))
             connection_refused); reflexivity.
  - exact (proj1 H).
Defined.

(** *** [export_csv] *)

Lemma bind_raises {A B} (m : M A) (k : A -> M B) (w w' : World) (e : exn) :
  m w = (Raises e, w') -> bind m k w = (Raises e, w').
Proof. intros H. unfold bind. now rewrite H. Qed.

Lemma try_except_raises {A} (body : M A) (catches : exn -> bool)
    (handler : exn -> M A) (w w' : World) (e : exn) :
  body w = (Raises e, w') -> catches e = true ->
  try_except body catches handler w = handler e w'.
Proof. intros H Hc. unfold try_except. now rewrite H, Hc. Qed.

(** X18: when the query raises, or when the output path cannot be opened,
    [export_csv] raises the export failure with the cause in its message
    and changes no file: a file already at the path keeps its content. *)
Theorem export_csv_fails_before_writing :
  forall server float_repr csv_record open_error conn
         (sql output_path : string) (w : World),
    let q := query server conn sql "JSON" w in
    let out := export_csv server float_repr csv_record open_error conn
                          sql output_path w in
    (forall e, fst q = Raises e ->
       fst out = Raises (mkExn Exception_
                           ("Failed to export CSV: " ++ exn_str e))
       /\ files (snd out) = files w)
    /\ (forall rs msg, fst q = Returns rs ->
          open_error output_path = Some msg ->
          fst out = Raises (mkExn Exception_ ("Failed to export CSV: " ++ msg))
          /\ files (snd out) = files w).
Proof.
  intros server float_repr csv_record open_error conn sql output_path w q out.
  assert (Hfiles : files (snd q) = files w).
  { unfold q. now rewrite ClientFacts.query_run. }
  destruct q as [r w1] eqn:Hq. cbn [fst snd] in *.
  split.
  - intros e ->.
    assert (E : out = (Raises (mkExn Exception_
                                 ("Failed to export CSV: " ++ exn_str e)),
                       w1)).
    { unfold out, export_csv.
      erewrite try_except_raises;
        [reflexivity | apply bind_raises; exact Hq | reflexivity]. }
    rewrite E. split; [reflexivity | exact Hfiles].
  - intros rs msg -> Hopen.
    assert (E : out = (Raises (mkExn Exception_
                                 ("Failed to export CSV: " ++ msg)), w1)).
    { unfold out, export_csv.
      rewrite (try_except_raises _ _ _ w w1 (mkExn OSError msg));
        [reflexivity | | reflexivity].
      eapply ClientFacts.bind_returns; [exact Hq|].
      destruct rs as [|row0 rest]; apply bind_raises;
        unfold open_w; now rewrite Hopen. }
    rewrite E. split; [reflexivity | exact Hfiles].
Qed.

Lemma export_csv_fails_before_writing_witness :
  let w := mkWorld [] (fun p => if String.eqb p "out.csv"
                                then Some "kept" else None) in
  let out := export_csv unreachable repr0 excel_record always_opens conn0
                        "SELECT 1" "out.csv" w in
  fst out = Raises (mkExn Exception_
                      ("Failed to export CSV: ClickHouse query failed: "
                       ++ exn_str connection_refused))
  /\ files (snd out) "out.csv" = Some "kept".
Proof.
  intros w out.
  destruct (proj1 (export_csv_fails_before_writing unreachable repr0
                     excel_record always_opens conn0 "SELECT 1" "out.csv" w)
              _ eq_refl) as [Hr Hf].
  split; [exact Hr | unfold out; now rewrite Hf].
Defined.

Lemma filter_nil_forallb {A} (f : A -> bool) (l : list A) :
  filter (fun x => negb (f x)) l = [] -> forallb f l = true.
Proof.
  induction l as [|x l IH]; [reflexivity|]. simpl.
  destruct (f x); simpl; [exact IH | discriminate].
Qed.

Lemma dict_to_list_extra_key (fieldnames : list string) (row : Row) :
  has_extra_key fieldnames row = true ->
  exists msg,
    dict_to_list fieldnames row
    = Raises (mkExn ValueError
                ("dict contains fields not in fieldnames: " ++ msg)).
Proof.
  intros H. unfold dict_to_list.
  destruct (filter _ (keys row)) as [|k ks] eqn:E.
  - apply filter_nil_forallb in E. unfold has_extra_key in H.
    now rewrite E in H.
  - eexists. reflexivity.
Qed.

Lemma writerows_stops_at_extra_key float_repr csv_record (path : string)
    (fieldnames : list string) (good : list Row) (bad : Row)
    (rest : list Row) :
  keys_within fieldnames good = true ->
  has_extra_key fieldnames bad = true ->
  forall (w : World) (old : string),
    files w path = Some old ->
    exists msg w',
      writerows float_repr csv_record path fieldnames
                (good ++ bad :: rest) w
      = (Raises (mkExn ValueError
                   ("dict contains fields not in fieldnames: " ++ msg)), w')
      /\ files w' path
         = Some (old ++ csv_rows float_repr csv_record fieldnames good).
Proof.
  intros Hgood Hbad. induction good as [|row good IH]; intros w old Hold.
  - destruct (dict_to_list_extra_key _ _ Hbad) as [msg Hmsg].
    exists msg, w. cbn [app writerows]. unfold bind, lift. rewrite Hmsg.
    split; [reflexivity|]. cbn. now rewrite BuilderFacts.append_empty_r.
  - simpl in Hgood. apply andb_true_iff in Hgood. destruct Hgood as [Hrow Hg].
    cbn [app]. rewrite (ClientFacts.writerows_accepts _ _ _ _ _ _ _ Hrow).
    set (record := csv_record _).
    set (w1 := snd (write path record w)).
    assert (H1 : files w1 path = Some (old ++ record)).
    { unfold w1. cbn. now rewrite String.eqb_refl, Hold. }
    destruct (IH Hg w1 _ H1) as (msg & w' & Hr & Hf).
    exists msg, w'. split; [exact Hr|].
    rewrite Hf. unfold csv_rows. cbn [map].
    rewrite ClientFacts.join_empty_cons. now rewrite ClientFacts.append_assoc.
Qed.

(** X19: [export_csv] does not write the file in one piece. When a row
    holds a key outside the first row's keys, it raises the export failure
    and leaves at the path the header and the records of the rows before
    that one. *)
Theorem export_csv_leaves_partial_file :
  forall server float_repr csv_record open_error conn
         (sql output_path : string) (w w1 : World)
         (row0 bad : Row) (good rest : list Row),
    query server conn sql "JSON" w
      = (Returns (row0 :: good ++ bad :: rest), w1) ->
    open_error output_path = None ->
    keys_within (keys row0) (row0 :: good) = true ->
    has_extra_key (keys row0) bad = true ->
    let out := export_csv server float_repr csv_record open_error conn
                          sql output_path w in
    (exists msg,
        fst out
        = Raises (mkExn Exception_
                    ("Failed to export CSV: "
                     ++ "dict contains fields not in fieldnames: " ++ msg)))
    /\ files (snd out) output_path
       = Some (csv_record (keys row0)
               ++ csv_rows float_repr csv_record (keys row0) (row0 :: good)).
Proof.
  intros server float_repr csv_record open_error conn sql output_path w w1
         row0 bad good rest Hq Hopen Hgood Hbad out.
  set (w2 := snd (write output_path (csv_record (keys row0))
                    (snd (open_w open_error output_path w1)))).
  assert (Hopened : open_w open_error output_path w1
                    = (Returns tt, snd (open_w open_error output_path w1))).
  { unfold open_w. now rewrite Hopen. }
  assert (H2 : files w2 output_path = Some (csv_record (keys row0))).
  { unfold w2, open_w. rewrite Hopen. cbn. now rewrite !String.eqb_refl. }
  destruct (writerows_stops_at_extra_key float_repr csv_record output_path
              (keys row0) (row0 :: good) bad rest Hgood Hbad w2 _ H2)
    as (msg & w3 & Hr & Hf).
  assert (E : out = (Raises (mkExn Exception_
                               ("Failed to export CSV: "
                                ++ "dict contains fields not in fieldnames: "
                                ++ msg)), w3)).
  { unfold out, export_csv.
    rewrite (try_except_raises _ _ _ w w3
               (mkExn ValueError
                  ("dict contains fields not in fieldnames: " ++ msg)));
      [reflexivity | | reflexivity].
    eapply ClientFacts.bind_returns; [exact Hq|]. cbn beta iota.
    eapply ClientFacts.bind_returns; [exact Hopened|].
    eapply ClientFacts.bind_returns; [reflexivity|].
    apply bind_raises. exact Hr. }
  rewrite E. split; [now exists msg | exact Hf].
Qed.

Lemma export_csv_leaves_partial_file_witness :
  let out := export_csv (answers uneven_rows) repr0 excel_record always_opens
                        conn0 "SELECT 1" "out.csv" world0 in
  files (snd out) "out.csv" = Some ("a" ++ cr ++ nl ++ "1" ++ cr ++ nl).
Proof.
  exact (proj2 (export_csv_leaves_partial_file (answers uneven_rows) repr0
                  excel_record always_opens conn0 "SELECT 1" "out.csv"
                  world0 _ [("a", JInt 1)] [("a", JInt 2); ("b", JInt 3)]
                  [] [] eq_refl eq_refl eq_refl eq_refl)).
Defined.

(** *** Flags *)

Lemma never_false_ret : never_false (ret true).
Proof. intros w. discriminate. Qed.

Lemma never_false_raise (e : exn) : never_false (raise e).
Proof. intros w. discriminate. Qed.

Lemma never_false_bind {A} (m : M A) (k : A -> M bool) :
  (forall a, never_false (k a)) -> never_false (bind m k).
Proof.
  intros H w. unfold bind. destruct (m w) as [[a|e] w'];
    [apply H | discriminate].
Qed.

Lemma never_false_try (body : M bool) (catches : exn -> bool)
    (handler : exn -> M bool) :
  never_false body -> (forall e, never_false (handler e)) ->
  never_false (try_except body catches handler).
Proof.
  intros Hb Hh w. unfold try_except. specialize (Hb w).
  destruct (body w) as [[b|e] w']; [exact Hb|].
  destruct (catches e); [apply Hh | discriminate].
Qed.

(** X20: [insert], [execute_file] and [export_csv] never return [False]:
    each returns [True] or raises, so their flag tells a caller nothing. *)
Theorem flags_are_never_false :
  forall server float_repr csv_record open_error conn,
    (forall table rs, never_false (insert server float_repr conn table rs))
    /\ (forall repr_str path,
          never_false (execute_file server conn repr_str path))
    /\ (forall sql output_path,
          never_false (export_csv server float_repr csv_record open_error
                                  conn sql output_path)).
Proof.
  intros server float_repr csv_record open_error conn.
  split; [|split].
  - intros table rs. unfold insert. destruct (negb (truthy_list rs)).
    + apply never_false_ret.
    + apply never_false_try; [|intros e; apply never_false_raise].
      apply never_false_bind. intros response.
      apply never_false_bind. intros _. apply never_false_ret.
  - intros repr_str path. unfold execute_file.
    apply never_false_try; [|intros e; apply never_false_raise].
    apply never_false_bind. intros sql.
    apply never_false_bind. intros _. apply never_false_ret.
  - intros sql output_path. unfold export_csv.
    apply never_false_try; [|intros e; apply never_false_raise].
    apply never_false_bind. intros [|row0 rest];
      repeat (apply never_false_bind; intros ?); apply never_false_ret.
Qed.

End ClientLaws.

(* ------------------------------------------------------------------ *)
(** ** Properties of the command line *)

Module CliFacts.
Import Py PyData Client Examples Metadata Cli Notions.

(** [table_stats] always returns. *)
Lemma table_stats_returns server conn (name : string) (w : World) :
  exists st, fst (table_stats server conn name w) = Returns st.
Proof.
  unfold table_stats, try_except, bind, lift.
  destruct (query server conn (table_stats_sql name) "JSON" w)
    as [[[|row rest]|e] w']; try (eexists; reflexivity).
  destruct (truediv (get row "compressed_size" (JInt 0)) (1024 * 1024));
    [|eexists; reflexivity].
  destruct (truediv (get row "uncompressed_size" (JInt 0)) (1024 * 1024));
    eexists; reflexivity.
Qed.

(** X21: the [stats] command never prints an error. It prints one text,
    the dump of a statistics record, and when the server cannot be reached
    that record is the zeroed one: a failure looks like an empty table. *)
Theorem main_stats_never_prints_error :
  forall server float_repr json_dumps_rows json_dumps_stats
         (args : Namespace) (table : string) (w : World),
    args_command args = Some (StatsCommand table) ->
    let conn := mkConnection (args_host args) (args_port args)
                  (args_database args) (args_user args)
                  (args_password args) in
    let out := main server float_repr json_dumps_rows json_dumps_stats
                    args w in
    (exists st, fst out = [json_dumps_stats st])
    /\ (forall e,
          server (sent w)
                 (query_request conn (table_stats_sql table) "JSON")
          = Fails e ->
          fst out = [json_dumps_stats zero_stats]).
Proof.
  intros server float_repr json_dumps_rows json_dumps_stats args table w
         Hcmd conn out.
  unfold out, main. rewrite Hcmd. fold conn. split.
  - destruct (table_stats_returns server conn table w) as [st Hst].
    exists st. destruct (table_stats server conn table w) as [r w'].
    cbn [fst] in Hst. now subst r.
  - intros e He. unfold table_stats, try_except, bind.
    rewrite ClientFacts.query_run, He. cbn.
    now destruct (is_URLError e).
Qed.

Lemma main_stats_never_prints_error_witness :
  fst (main unreachable repr0 dumps_rows0 dumps_stats0
            (args0 (StatsCommand "events")) world0)
  = ["<stats rows=0>"].
Proof.
  apply (proj2 (main_stats_never_prints_error unreachable repr0 dumps_rows0
                  dumps_stats0 (args0 (StatsCommand "events")) "events"
                  world0 eq_refl) connection_refused).
  reflexivity.
Defined.

(** X22: the [query] command prints exactly one text and lets no exception
    out: the dump of the rows when [query] returns, and otherwise
    ["Error: "] followed by the message, which for an unreachable server is
    that of the generic query failure and for a body that is not JSON the
    message of the decoder. *)
Theorem main_query_prints_rows_or_error :
  forall server float_repr json_dumps_rows json_dumps_stats
         (args : Namespace) (sql : string) (w : World),
    args_command args = Some (QueryCommand sql) ->
    let conn := mkConnection (args_host args) (args_port args)
                  (args_database args) (args_user args)
                  (args_password args) in
    let req := query_request conn sql "JSON" in
    let out := main server float_repr json_dumps_rows json_dumps_stats
                    args w in
    List.length (fst out) = 1%nat
    /\ sent (snd out) = (sent w ++ [req])%list
    /\ (forall rs, fst (query server conn sql "JSON" w) = Returns rs ->
                   fst out = [json_dumps_rows rs])
    /\ (forall e, server (sent w) req = Fails e -> is_URLError e = true ->
                  fst out
                  = ["Error: ClickHouse query failed: " ++ exn_str e])
    /\ (forall e, server (sent w) req = Responds (Raises e) ->
                  is_URLError e = false ->
                  fst out = ["Error: " ++ exn_str e]).
Proof.
  intros server float_repr json_dumps_rows json_dumps_stats args sql w
         Hcmd conn req out.
  unfold out, main. rewrite Hcmd. fold conn.
  rewrite ClientFacts.query_run. fold req. cbn [fst snd].
  destruct (query_outcome (server (sent w) req)) as [rs|e0] eqn:E;
    cbn [fst snd sent List.length]; repeat split; try discriminate.
  - intros rs' H. now inversion H.
  - intros e He Hu. rewrite He in E. cbn in E. now rewrite Hu in E.
  - intros e He Hu. rewrite He in E. cbn in E. now rewrite Hu in E.
  - intros e He Hu. rewrite He in E. cbn in E. rewrite Hu in E.
    now inversion E.
  - intros e He Hu. rewrite He in E. cbn in E. rewrite Hu in E.
    now inversion E.
Qed.

Lemma main_query_prints_rows_or_error_witness :
  fst (main not_json repr0 dumps_rows0 dumps_stats0
            (args0 (QueryCommand "SELECT 1")) world0)
  = ["Error: " ++ exn_str decode_error].
Proof.
  apply (proj2 (proj2 (proj2 (proj2
           (main_query_prints_rows_or_error not_json repr0 dumps_rows0
              dumps_stats0 (args0 (QueryCommand "SELECT 1")) "SELECT 1"
              world0 eq_refl)))) decode_error); reflexivity.
Defined.

(** X23: the [tables] command prints one text per row of the result, the
    [str] of its [name] value, in order; when some row has no [name] it
    prints the one line ["Error: 'name'"] and no table at all. Without a
    subcommand [main] prints nothing and sends nothing. *)
Theorem main_tables_prints_names :
  forall server float_repr json_dumps_rows json_dumps_stats
         (args : Namespace) (w w' : World) (results : list Row),
    let conn := mkConnection (args_host args) (args_port args)
                  (args_database args) (args_user args)
                  (args_password args) in
    let out := main server float_repr json_dumps_rows json_dumps_stats
                    args w in
    (args_command args = None -> out = ([], w))
    /\ (args_command args = Some TablesCommand ->
        query server conn (list_tables_sql (args_database args)) "JSON" w
          = (Returns results, w') ->
        ((forall row, In row results -> lookup row "name" <> None) ->
         fst out
         = map (fun row => str float_repr (get row "name" JNull)) results)
        /\ ((exists row, In row results /\ lookup row "name" = None) ->
            fst out = ["Error: 'name'"])).
Proof.
  intros server float_repr json_dumps_rows json_dumps_stats args w w'
         results conn out.
  split; [intros H; unfold out, main; now rewrite H|].
  intros Hcmd Hq. unfold out, main. rewrite Hcmd. fold conn.
  unfold list_tables. cbn [database_or_default database]. fold conn.
  change (database conn) with (args_database args). rewrite Hq.
  split; intros H.
  - rewrite (ClientLaws.column_all_present _ _ H). cbn [fst].
    now rewrite map_map.
  - now rewrite (ClientLaws.column_one_missing _ _ H).
Qed.

Lemma main_tables_prints_names_witness :
  fst (main (answers [[("name", JStr "events")]; [("id", JInt 2)]])
            repr0 dumps_rows0 dumps_stats0 (args0 TablesCommand) world0)
  = ["Error: 'name'"].
Proof.
  refine (proj2 (proj2 (main_tables_prints_names
                   (answers [[("name", JStr "events")]; [("id", JInt 2)]])
                   repr0 dumps_rows0 dumps_stats0 (args0 TablesCommand)
                   world0 _ _) eq_refl eq_refl) _).
  exists [("id", JInt 2)]. split; [right; now left | reflexivity].
Defined.

End CliFacts.
